(** * Bot dashboard: the data-shaping core of [bot_dashboard.py]

    A shallow embedding of the Python code of the dashboard: the position
    normaliser ([normalize_positions]), the two list fetchers with their
    fallback ordering, the latest-price cache and the decision timeline
    (intent normalisation, marker groups, recent activity).

    Python floats are IEEE-754 binary64 numbers, and so are Rocq's primitive
    floats: arithmetic is modelled with [PrimFloat], Python's own departure
    (a division by zero raises) is written out in [truediv]. *)

From Stdlib Require Import ZArith List String Ascii Bool Lia Floats.
From Stdlib Require Import DecimalString Sorted Permutation.
Import ListNotations.

Set Warnings "-register-all".

(** ** Python values, exceptions and builtins *)

Module Py.

(** The exception classes the modelled code can meet. All of them derive
    from [Exception]; [APIError] stands for whatever the store client raises. *)
Inductive exn : Type :=
| TypeError
| ValueError
| OverflowError
| ZeroDivisionError
| AttributeError
| APIError (msg : string).

(** The outcome of evaluating an expression: a value, or a raised exception. *)
Inductive result (A : Type) : Type :=
| Ok (a : A)
| Raise (e : exn).

Arguments Ok {A} a.
Arguments Raise {A} e.

Definition bind {A B : Type} (m : result A) (k : A -> result B) : result B :=
  match m with
  | Ok a => k a
  | Raise e => Raise e
  end.

Notation "x <- m ;; k" := (bind m (fun x => k))
  (at level 61, m at next level, right associativity).

(** What [json] decoding produces: the store hands records over as these. *)
Inductive value : Type :=
| VNone
| VBool (b : bool)
| VInt (z : Z)
| VFloat (f : float)
| VStr (s : string)
| VList (l : list value)
| VDict (d : list (string * value)).

(** A decoded JSON object: keys in insertion order. *)
Definition dict : Type := list (string * value).

(** [d.get(k)] with no default: [None] when the key is absent. *)
Fixpoint get (d : dict) (k : string) : option value :=
  match d with
  | [] => None
  | (k', v) :: d' => if String.eqb k' k then Some v else get d' k
  end.

(** [d.get(k, default)] *)
Definition get_default (d : dict) (k : string) (default : value) : value :=
  match get d k with
  | Some v => v
  | None => default
  end.

(** [k in d] *)
Definition contains_key (d : dict) (k : string) : bool :=
  match get d k with
  | Some _ => true
  | None => false
  end.

(** [bool(x)] for a float: every float but the two zeros is true (NaN too). *)
Definition float_truthy (f : float) : bool := negb (f =? 0)%float.

(** [bool(v)] *)
Definition truthy (v : value) : bool :=
  match v with
  | VNone => false
  | VBool b => b
  | VInt z => negb (z =? 0)%Z
  | VFloat f => float_truthy f
  | VStr s => negb (String.eqb s EmptyString)
  | VList l => match l with [] => false | _ :: _ => true end
  | VDict d => match d with [] => false | _ :: _ => true end
  end.

(** [a or b] *)
Definition py_or (a b : value) : value := if truthy a then a else b.

(** [float(n)] for an [int]: the nearest binary64 number (ties to even), and
    [OverflowError] when that would be an infinity. *)
Definition float_of_int (z : Z) : result float :=
  match binary_normalize prec emax z 0 false with
  | S754_infinity _ => Raise OverflowError
  | sf => Ok (SF2Prim sf)
  end.

(** [a / b] on floats: IEEE division, but a zero divisor raises. *)
Definition truediv (a b : float) : result float :=
  if (b =? 0)%float then Raise ZeroDivisionError else Ok (a / b)%float.

(** *** Strings

    A Python [str] is modelled by the bytes of its UTF-8 encoding. On ASCII
    text, which is what the keys, sides and intents compared below are,
    bytes and characters coincide. *)

Definition is_upper (c : ascii) : bool := (("A" <=? c) && (c <=? "Z"))%char.
Definition is_lower (c : ascii) : bool := (("a" <=? c) && (c <=? "z"))%char.

Definition lower_char (c : ascii) : ascii :=
  if is_upper c then ascii_of_nat (nat_of_ascii c + 32) else c.
Definition upper_char (c : ascii) : ascii :=
  if is_lower c then ascii_of_nat (nat_of_ascii c - 32) else c.

Fixpoint map_string (f : ascii -> ascii) (s : string) : string :=
  match s with
  | EmptyString => EmptyString
  | String c s' => String (f c) (map_string f s')
  end.

(** [s.lower()] and [s.upper()] on ASCII text: the ASCII letters are mapped
    and the bytes of any other character are left as they are. Python also
    maps the letters outside ASCII, some of them into ASCII ([upper] maps
    U+017F to S, U+0131 to I, U+00DF to SS and the ligatures U+FB00 to
    U+FB06 to their letters), so on other text this is not Python's answer:
    what is proved of a text that is upper-cased either assumes the text
    ASCII or does not depend on what its letters become. No letter outside
    ASCII lower-cases into one of the letters of ["long"] and ["buy"], the
    only texts a lower-cased one is compared with. *)
Definition lower (s : string) : string := map_string lower_char s.
Definition upper (s : string) : string := map_string upper_char s.

Fixpoint starts_with (p s : string) : bool :=
  match p, s with
  | EmptyString, _ => true
  | String a p', String b s' => Ascii.eqb a b && starts_with p' s'
  | String _ _, EmptyString => false
  end.

(** [needle in hay] *)
Fixpoint str_in (needle hay : string) : bool :=
  starts_with needle hay ||
  match hay with
  | EmptyString => false
  | String _ hay' => str_in needle hay'
  end.

(** The library functions whose text is not this repository's: Python's
    [float] on a [str], [str] on a float or a container, the two pandas
    parsers the timeline uses, each applied element by element, and the
    conversion a frame makes of a column when it is built. *)
Class Builtins : Type := {
  (** [float(s)]: [None] is a [ValueError]. *)
  float_of_str : string -> option float;
  (** [str(v)] for a float, a list or a dict. *)
  str_other : value -> string;
  (** [pd.to_datetime(format="ISO8601", utc=True, errors="coerce")] on a
      cell that holds something: nanoseconds since the epoch, [None] is NaT. *)
  parse_iso8601 : value -> option Z;
  (** [pd.to_numeric(errors="coerce")] on a cell: [None] is NaN. *)
  to_numeric : value -> option float;
  (** What [pd.DataFrame(records)] holds in a cell: the column is given by
      the records' entries under one key, in their order ([None]: the record
      has no such key), the cell by the entry of its own record. pandas
      converts the column as a whole: a missing entry is NaN, and a whole
      number beside a missing entry or a float is held as a float. *)
  frame_cell : list (option value) -> option value -> value
}.

Section WithBuiltins.
Context {B : Builtins}.

(** [float(v)] *)
Definition py_float (v : value) : result float :=
  match v with
  | VNone => Raise TypeError
  | VBool b => Ok (if b then 1 else 0)%float
  | VInt z => float_of_int z
  | VFloat f => Ok f
  | VStr s => match float_of_str s with
              | Some f => Ok f
              | None => Raise ValueError
              end
  | VList _ => Raise TypeError
  | VDict _ => Raise TypeError
  end.

(** [str(v)] *)
Definition py_str (v : value) : string :=
  match v with
  | VStr s => s
  | VNone => "None"
  | VBool true => "True"
  | VBool false => "False"
  | VInt z => NilZero.string_of_int (Z.to_int z)
  | _ => str_other v
  end.

End WithBuiltins.

End Py.

(** ** The position normaliser *)

Module Positions.
Import Py.

(** One row of the positions table, the dict [normalize_positions] appends
    ([Type_] is the row's ["Type"], [ROI] its ["ROI%"]). *)
Record row : Type := {
  Symbol : string;
  Type_ : string;
  Collateral : float;
  Leverage : float;
  Notional : float;
  Entry : float;
  PnL : float;
  ROI : float
}.

Definition LONG : string := "🟢 LONG".
Definition SHORT : string := "🔴 SHORT".

Section Normalizer.
Context {B : Builtins}.

(** [(latest_price - entry) / entry * notional], or with the difference
    reversed for any side but ["long"], guarded by [latest_price and entry].
    Both branches of the loop compute it, [collateral] and [roi] with the
    same text, [qty] standing for [notional] in the second. *)
Definition pnl_of (latest_price : option float) (entry notional : float)
    (side : string) : result float :=
  match latest_price with
  | Some lp =>
      if float_truthy lp && float_truthy entry then
        if String.eqb side "long" then
          q <- truediv (lp - entry)%float entry ;; Ok (q * notional)%float
        else
          q <- truediv (entry - lp)%float entry ;; Ok (q * notional)%float
      else Ok 0%float
  | None => Ok 0%float
  end.

(** [(pnl / collateral) * 100.0 if collateral > 0 else 0.0] *)
Definition roi_of (pnl collateral : float) : result float :=
  if (0 <? collateral)%float then
    q <- truediv pnl collateral ;; Ok (q * 100)%float
  else Ok 0%float.

(** [(notional / lev) if lev else 0.0] *)
Definition collateral_of (notional lev : float) : result float :=
  if float_truthy lev then truediv notional lev else Ok 0%float.

(** The body of the loop of [normalize_positions] for one [key, pos] item:
    the row it appends, or the exception it raises. [latest_price] is what
    the session state holds under ["latest_price"]. *)
Definition normalize_entry (latest_price : option float) (key : string)
    (pos : value) : result row :=
  match pos with
  | VDict pos =>
      lev <- py_float (py_or (get_default pos "leverage" (VInt 1)) (VInt 1)) ;;
      entry <- py_float (py_or (get_default pos "entry_price" (VInt 0)) (VInt 0)) ;;
      if contains_key pos "notional_usdt" || contains_key pos "side" then
        (* v2/v3 style *)
        notional <- py_float (py_or (get_default pos "notional_usdt" (VInt 0)) (VInt 0)) ;;
        let side := lower (py_str (get_default pos "side" (VStr "long"))) in
        collateral <- collateral_of notional lev ;;
        pnl <- pnl_of latest_price entry notional side ;;
        roi <- roi_of pnl collateral ;;
        Ok {| Symbol := key;
              Type_ := if String.eqb side "long" then LONG else SHORT;
              Collateral := collateral;
              Leverage := lev;
              Notional := notional;
              Entry := entry;
              PnL := pnl;
              ROI := roi |}
      else
        (* old style *)
        qty <- py_float (py_or (get_default pos "qty" (VInt 0)) (VInt 0)) ;;
        collateral <- collateral_of qty lev ;;
        let side := (if str_in "buy" (lower key) then "long" else "short")%string in
        pnl <- pnl_of latest_price entry qty side ;;
        roi <- roi_of pnl collateral ;;
        Ok {| Symbol := key;
              Type_ := if String.eqb side "long" then LONG else SHORT;
              Collateral := collateral;
              Leverage := lev;
              Notional := qty;
              Entry := entry;
              PnL := pnl;
              ROI := roi |}
  | _ => Raise AttributeError
  end.

(** The loop: rows in the mapping's order, stopping at the first exception. *)
Fixpoint normalize_items (latest_price : option float) (items : dict)
    : result (list row) :=
  match items with
  | [] => Ok []
  | (key, pos) :: items' =>
      r <- normalize_entry latest_price key pos ;;
      rows <- normalize_items latest_price items' ;;
      Ok (r :: rows)
  end.

(** [normalize_positions(positions)], the session's latest price made an
    argument. A falsy [positions] gives no row; anything else must have
    [items()]. *)
Definition normalize_positions (latest_price : option float)
    (positions : value) : result (list row) :=
  if negb (truthy positions) then Ok []
  else match positions with
       | VDict items => normalize_items latest_price items
       | _ => Raise AttributeError
       end.

End Normalizer.

End Positions.

(** ** The list fetchers *)

Module Fetch.
Import Py.

(** A query as the client builds it:
    [supabase.table(t).select("*").order(col, desc=True).limit(n)], or
    [supabase.table(t).select("*").eq("id", i)]. *)
Inductive query : Type :=
| Ordered (table order_by : string) (desc : bool) (limit : Z)
| ById (table : string) (id : Z).

Section Store.

(** The hosted store, and what [.execute()] does to it: the response's
    [data] ([None] or a list of records) or an exception, and the store
    after the call. *)
Variable store : Type.
Variable execute : query -> store -> result (option (list dict)) * store.

(** The store together with the queries sent to it so far, oldest first. *)
Record world : Type := {
  db : store;
  sent : list query
}.

Definition io (A : Type) : Type := world -> result A * world.

Definition run (q : query) : io (option (list dict)) :=
  fun w =>
    let (r, s) := execute q (db w) in
    (r, {| db := s; sent := sent w ++ [q] |}).

(** [res.data or []] *)
Definition data_or_empty (data : option (list dict)) : list dict :=
  match data with
  | Some (r :: rs) => r :: rs
  | Some [] => []
  | None => []
  end.

(** [fetch_bot_logs(limit)]: the query ordered by [created_at], and on an
    exception the one ordered by [timestamp], outside any [try]. *)
Definition fetch_bot_logs (limit : Z) : io (list dict) :=
  fun w =>
    match run (Ordered "bot_logs" "created_at" true limit) w with
    | (Ok data, w1) => (Ok (data_or_empty data), w1)
    | (Raise _, w1) =>
        match run (Ordered "bot_logs" "timestamp" true limit) w1 with
        | (Ok data, w2) => (Ok (data_or_empty data), w2)
        | (Raise e, w2) => (Raise e, w2)
        end
    end.

(** [fetch_trade_history(limit)] *)
Definition fetch_trade_history (limit : Z) : io (list dict) :=
  fun w =>
    match run (Ordered "trade_history" "created_at" true limit) w with
    | (Ok data, w1) => (Ok (data_or_empty data), w1)
    | (Raise _, w1) =>
        match run (Ordered "trade_history" "timestamp" true limit) w1 with
        | (Ok data, w2) => (Ok (data_or_empty data), w2)
        | (Raise e, w2) => (Raise e, w2)
        end
    end.

(** [res[0] if res else None] over the row with [id = 1]. *)
Definition fetch_portfolio_state : io (option dict) :=
  fun w =>
    match run (ById "portfolio_state" 1) w with
    | (Ok (Some (r :: _)), w1) => (Ok (Some r), w1)
    | (Ok _, w1) => (Ok None, w1)
    | (Raise e, w1) => (Raise e, w1)
    end.

End Store.

Arguments db {store} w.
Arguments sent {store} w.
Arguments Build_world {store} db sent.
Arguments run {store} execute q w.
Arguments fetch_bot_logs {store} execute limit w.
Arguments fetch_trade_history {store} execute limit w.
Arguments fetch_portfolio_state {store} execute w.

End Fetch.

(** ** Texts by their characters; the sidebar's address and the count of
       positions *)

Module Page.
Import Py.

(** The bytes 10xxxxxx continue a character of a UTF-8 text; every other
    byte starts one. *)
Definition starts_char (c : ascii) : bool :=
  negb ((128 <=? nat_of_ascii c) && (nat_of_ascii c <? 192)).

(** [len(s)] for a [str]: its characters. *)
Fixpoint str_len (s : string) : nat :=
  match s with
  | EmptyString => 0
  | String c s' => (if starts_char c then 1 else 0) + str_len s'
  end.

(** [s[:n]]: the first [n] characters, with the bytes that continue them. *)
Fixpoint take_chars (n : nat) (s : string) : string :=
  match s with
  | EmptyString => EmptyString
  | String c s' =>
      if starts_char c then
        match n with
        | 0 => EmptyString
        | S n' => String c (take_chars n' s')
        end
      else String c (take_chars n s')
  end.

(** The horizontal ellipsis, U+2026, in UTF-8. *)
Definition ELLIPSIS : string :=
  String (ascii_of_nat 226) (String (ascii_of_nat 128) (String (ascii_of_nat 166) EmptyString)).

(** What the sidebar writes of the store's address:
    [str(SUPABASE_URL)[:60] + ("..." if len(str(SUPABASE_URL)) > 60 else "")],
    the dots being the one character U+2026. *)
Definition url_preview (url : string) : string :=
  let tail := if 60 <? str_len url then ELLIPSIS else EmptyString in
  (take_chars 60 url ++ tail)%string.

(** The bytes of the character a byte starts, as UTF-8's lead bytes give
    them. *)
Definition char_bytes (c : ascii) : nat :=
  let n := nat_of_ascii c in
  if n <? 192 then 1 else if n <? 224 then 2 else if n <? 240 then 3 else 4.

(** [s[n:]] and [s[:n]] read character by character, a character being its
    lead byte and the bytes that one announces; [pending] counts the bytes
    still to come of the character at hand. On a well-formed text this is
    the reading of [take_chars]; it differs in letting an ASCII byte end
    its character whatever follows. *)
Fixpoint drop_chars_from (n pending : nat) (s : string) : string :=
  match s with
  | EmptyString => EmptyString
  | String c s' =>
      match pending with
      | S p => drop_chars_from n p s'
      | 0 =>
          match n with
          | 0 => s
          | S n' => drop_chars_from n' (char_bytes c - 1) s'
          end
      end
  end.

Fixpoint take_chars_from (n pending : nat) (s : string) : string :=
  match s with
  | EmptyString => EmptyString
  | String c s' =>
      match pending with
      | S p => String c (take_chars_from n p s')
      | 0 =>
          match n with
          | 0 => EmptyString
          | S n' => String c (take_chars_from n' (char_bytes c - 1) s')
          end
      end
  end.

(** [s[start:stop]] for [start <= stop]. *)
Definition slice (start stop : nat) (s : string) : string :=
  take_chars_from (stop - start) 0 (drop_chars_from start 0 s).

(** [len(v)] *)
Definition py_len (v : value) : result Z :=
  match v with
  | VStr s => Ok (Z.of_nat (str_len s))
  | VList l => Ok (Z.of_nat (List.length l))
  | VDict d => Ok (Z.of_nat (List.length d))
  | _ => Raise TypeError
  end.

(** The number the "Open Positions" metric prints:
    [len(positions) if positions else 0]. *)
Definition open_positions (positions : value) : result Z :=
  if truthy positions then py_len positions else Ok 0%Z.

End Page.

(** ** The latest price and the top-line metric *)

Module Script.
Import Py Positions.

(** The text of the "Latest Price" metric: ["N/A"], or the price formatted
    as [f"${price:,.2f}"]. *)
Inductive metric_text : Type :=
| NA
| Dollars (price : float).

Section Pass.
Context {B : Builtins}.

(** What the script stores under [st.session_state["latest_price"]]:
    [logs[0].get("market_price", None)] made a float, or [None]. *)
Definition latest_price (logs : list dict) : result (option float) :=
  let latest_price :=
    match logs with
    | [] => VNone
    | log :: _ => get_default log "market_price" VNone
    end in
  match latest_price with
  | VNone => Ok None
  | v => f <- py_float v ;; Ok (Some f)
  end.

(** The "Latest Price" metric out of the session's value. *)
Definition latest_price_metric (session_price : option float) : metric_text :=
  match session_price with
  | Some p => if float_truthy p then Dollars p else NA
  | None => NA
  end.

(** [unrealized_pnl]: the sum of the rows' PnL, left at 0.0 unless there are
    positions and a latest price. *)
Definition unrealized_pnl (session_price : option float) (positions : value)
    : result float :=
  match session_price with
  | Some p =>
      if truthy positions && float_truthy p then
        rows <- normalize_positions session_price positions ;;
        Ok (fold_left (fun acc r => (acc + PnL r)%float) rows 0%float)
      else Ok 0%float
  | None => Ok 0%float
  end.

(** What one pass shows above the chart: the metric, the unrealized PnL and
    the rows of the positions table. *)
Record top : Type := {
  session_latest_price : option float;
  latest_metric : metric_text;
  unrealized : float;
  pos_rows : list row
}.

(** Lines 167 to 204 in their order: the session's price (171), the count
    of the positions (182, where [len] raises on a truthy value that has no
    length), the unrealized PnL (188 to 193) and the rows of the table
    (203). *)
Definition render_top (positions : value) (logs : list dict) : result top :=
  p <- latest_price logs ;;
  _ <- Page.open_positions positions ;;
  u <- unrealized_pnl p positions ;;
  rows <- normalize_positions p positions ;;
  Ok {| session_latest_price := p;
        latest_metric := latest_price_metric p;
        unrealized := u;
        pos_rows := rows |}.

End Pass.

End Script.

(** ** The decision timeline *)

Module Timeline.
Import Py.

Definition ACTION_INTENT_MAP : list (string * string) :=
  [ ("ENTER_LONG", "enter_long");
    ("ENTER_SHORT", "enter_short");
    ("ADD", "add");
    ("REDUCE", "reduce");
    ("CLOSE", "flat");
    ("HOLD", "hold");
    ("REVERSE", "reverse") ]%string.

Fixpoint lookup (m : list (string * string)) (k : string) : option string :=
  match m with
  | [] => None
  | (k', v) :: m' => if String.eqb k' k then Some v else lookup m' k
  end.

(** One cell of [s.str.upper().map(ACTION_INTENT_MAP).fillna(s)], [s] being
    the column as strings: the table's value for the upper-cased text, and
    the text itself where the table has none. *)
Definition map_intent (s : string) : string :=
  match lookup ACTION_INTENT_MAP (upper s) with
  | Some v => v
  | None => s
  end.

(** A row of [df_chart] once the frame is complete: the record it comes
    from, its parsed time (nanoseconds, UTC), and the two derived columns. *)
Record chart_row : Type := {
  source : dict;
  created_at : Z;
  intent_norm : string;
  market_price : option float
}.

(** One row of the recent-activity table. *)
Record recent_row : Type := {
  Time : string;
  Decision : value;
  Thesis : string
}.

(** [df.sort_values("created_at")], ascending. Rows of equal time keep
    their order here; pandas promises no order among them, and nothing
    below depends on one. *)
Fixpoint insert_row (r : chart_row) (rows : list chart_row) : list chart_row :=
  match rows with
  | [] => [r]
  | r' :: rows' =>
      if (created_at r <=? created_at r')%Z then r :: r' :: rows'
      else r' :: insert_row r rows'
  end.

Fixpoint sort_values (rows : list chart_row) : list chart_row :=
  match rows with
  | [] => []
  | r :: rows' => insert_row r (sort_values rows')
  end.

(** The order of the sorted frame. *)
Definition earlier (a b : chart_row) : Prop := (created_at a <= created_at b)%Z.

Section Frame.
Context {B : Builtins}.

(** [c in df.columns] for the frame built from the records: some record has
    the key. *)
Definition has_column (logs : list dict) (c : string) : bool :=
  existsb (fun log => contains_key log c) logs.

(** The entries of the records under one key: what the frame makes the
    column of. *)
Definition entries (logs : list dict) (c : string) : list (option value) :=
  map (fun log => get log c) logs.

(** [.astype(str)] on a cell of the frame: [str] of what the frame holds
    there. (pandas 3 leaves a missing cell missing where its predecessors
    write the text [nan]; neither is a name a marker group selects.) *)
Definition astype_str (column : list (option value)) (cell : option value) : string :=
  py_str (frame_cell column cell).

(** The cell of the ["created_at"] column the parser is given: the record's
    own [created_at] when the frame has that column, else the [timestamp]
    column's cell, else [None]. *)
Definition created_at_cell (logs : list dict) (log : dict) : option value :=
  if has_column logs "created_at" then get log "created_at"
  else if has_column logs "timestamp" then get log "timestamp"
  else Some VNone.

(** [safe_to_datetime] on one cell: NaN and [None] are NaT. *)
Definition safe_to_datetime (cell : option value) : option Z :=
  match cell with
  | None => None
  | Some VNone => None
  | Some v => parse_iso8601 v
  end.

(** The ["intent_norm"] cell of a record. *)
Definition intent_norm_cell (logs : list dict) (log : dict) : string :=
  if has_column logs "intent" then
    map_intent (astype_str (entries logs "intent") (get log "intent"))
  else if has_column logs "action" then
    map_intent (astype_str (entries logs "action") (get log "action"))
  else "hold".

(** The ["market_price"] cell after [pd.to_numeric(errors="coerce")]. *)
Definition market_price_cell (log : dict) : option float :=
  match get log "market_price" with
  | Some v => to_numeric v
  | None => None
  end.

(** The rows [dropna(subset=["created_at"])] keeps, in the records' order. *)
Fixpoint dropna (logs all : list dict) : list chart_row :=
  match logs with
  | [] => []
  | log :: logs' =>
      match safe_to_datetime (created_at_cell all log) with
      | Some t =>
          {| source := log;
             created_at := t;
             intent_norm := intent_norm_cell all log;
             market_price := market_price_cell log |} :: dropna logs' all
      | None => dropna logs' all
      end
  end.

(** [df_chart] as the figure and the markers read it (drawing the figure
    is the charting library's part). *)
Definition df_chart (logs : list dict) : list chart_row :=
  sort_values (dropna logs logs).

Definition intent_is (name : string) (r : chart_row) : bool :=
  String.eqb (intent_norm r) name.

Definition buys (logs : list dict) : list chart_row :=
  filter (intent_is "enter_long") (df_chart logs).
Definition shorts (logs : list dict) : list chart_row :=
  filter (intent_is "enter_short") (df_chart logs).
Definition adds (logs : list dict) : list chart_row :=
  filter (intent_is "add") (df_chart logs).
Definition reduces (logs : list dict) : list chart_row :=
  filter (intent_is "reduce") (df_chart logs).
Definition exits (logs : list dict) : list chart_row :=
  filter (fun r => intent_is "flat" r || intent_is "reverse" r) (df_chart logs).

(** The five marker groups, in the order the script adds them. *)
Definition marker_groups (logs : list dict) : list (list chart_row) :=
  [buys logs; shorts logs; adds logs; reduces logs; exits logs].

(** The body of the loop over [logs[:25]]. *)
Definition recent_of (log : dict) : recent_row :=
  let ts_raw :=
    py_or (py_or (get_default log "created_at" VNone)
                 (get_default log "timestamp" VNone)) (VStr EmptyString) in
  let ts := py_str ts_raw in
  let tshort := if str_in "T" ts then Page.slice 11 19 ts else ts in
  let intent :=
    py_or (py_or (get_default log "intent" VNone)
                 (get_default log "action" VNone)) (VStr EmptyString) in
  let thesis :=
    py_or (py_or (get_default log "rationale" VNone)
                 (get_default log "thesis" VNone)) (VStr EmptyString) in
  {| Time := tshort; Decision := intent;
     Thesis := Page.take_chars 160 (py_str thesis) |}.

(** The loop of lines 277 to 283: the rows of the recent-activity table,
    when the pass comes to build it. *)
Definition recent (logs : list dict) : list recent_row :=
  map recent_of (firstn 25 logs).

(** What the block of lines 224 to 286 leaves when it runs through: the
    frame of the chart, the marker groups and the recent-activity table. *)
Record chart_view : Type := {
  frame : list chart_row;
  markers : list (list chart_row);
  table : list recent_row
}.

(** The block as a whole. Without logs it writes "No bot logs found." and
    builds nothing. With logs, [px.line] (line 252) is asked to plot the
    [market_price] column: when no record has that key the frame has no such
    column, [px.line] raises [ValueError] and the pass ends there, before
    the markers and the table. The other library calls of the block are
    taken not to raise (the parsers are given [errors="coerce"]); drawing
    is the charting library's part. *)
Definition chart_block (logs : list dict) : result (option chart_view) :=
  match logs with
  | [] => Ok None
  | _ :: _ =>
      if has_column logs "market_price" then
        Ok (Some {| frame := df_chart logs;
                    markers := marker_groups logs;
                    table := recent logs |})
      else Raise ValueError
  end.

End Frame.

End Timeline.

(** ** A finite excerpt of the library functions

    [float], [str], [pd.to_datetime], [pd.to_numeric] and the frame's
    conversion of a column on the few inputs the examples below use, with
    the answers Python gives there; on every other input the excerpt answers
    "no parse" (or the empty text, or the value as it is), which is not
    Python's answer in general. The theorems are proved for every
    [Builtins]; the excerpt serves to run the model on concrete records. *)

Module Sample.
Import Py.

Definition sample_float_of_str (s : string) : option float :=
  if String.eqb s "0" then Some 0%float
  else if String.eqb s "10" then Some 10%float
  else None.

Definition sample_str_other (v : value) : string :=
  match v with
  | VFloat f => if is_nan f then "nan" else EmptyString
  | _ => EmptyString
  end.

Definition sample_parse_iso8601 (v : value) : option Z :=
  match v with
  | VStr s =>
      if String.eqb s "2024-01-01T12:34:56.789+00:00" then Some 1704112496789000000%Z
      else if String.eqb s "2024-01-01T12:35:00+00:00" then Some 1704112500000000000%Z
      else if String.eqb s "2024-01-01T12:36:00+00:00" then Some 1704112560000000000%Z
      else None
  | _ => None
  end.

Definition sample_to_numeric (v : value) : option float :=
  match v with
  | VInt z => match float_of_int z with Ok f => Some f | Raise _ => None end
  | VFloat f => Some f
  | _ => None
  end.

(** The frame's conversion of a column of numbers: with a missing entry, a
    null or a float among them, whole numbers are held as floats and the
    missing entries and nulls as NaN. In any other column a value is held
    as it is, and a missing entry as NaN. *)
Definition is_number (e : option value) : bool :=
  match e with
  | Some (VInt _) | Some (VFloat _) => true
  | _ => false
  end.

Definition is_gap (e : option value) : bool :=
  match e with
  | None | Some VNone => true
  | _ => false
  end.

Definition is_whole (e : option value) : bool :=
  match e with
  | Some (VInt _) => true
  | _ => false
  end.

Definition sample_frame_cell (column : list (option value)) (cell : option value) : value :=
  let numbers :=
    forallb (fun e => is_number e || is_gap e) column && existsb is_number column in
  let floats := numbers && negb (forallb is_whole column) in
  match cell with
  | None => VFloat nan
  | Some VNone => if numbers then VFloat nan else VNone
  | Some (VInt z) =>
      if floats then
        match float_of_int z with
        | Ok f => VFloat f
        | Raise _ => VInt z
        end
      else VInt z
  | Some v => v
  end.

#[export] Instance sample : Builtins := {
  float_of_str := sample_float_of_str;
  str_other := sample_str_other;
  parse_iso8601 := sample_parse_iso8601;
  to_numeric := sample_to_numeric;
  frame_cell := sample_frame_cell
}.

(** Two stores: one on the older schema, where ordering by [created_at]
    fails and ordering by [timestamp] answers, and one that cannot be
    reached at all. *)
Inductive sample_store : Type :=
| OlderSchema
| Unreachable.

Definition older_rows : list dict :=
  [ [ ("timestamp", VStr "2024-01-01T12:35:00+00:00"); ("action", VStr "HOLD") ] ]%string.

Definition sample_execute (q : Fetch.query) (s : sample_store)
    : result (option (list dict)) * sample_store :=
  match s, q with
  | OlderSchema, Fetch.Ordered _ order_by _ _ =>
      if String.eqb order_by "timestamp" then (Ok (Some older_rows), s)
      else (Raise (APIError "column does not exist"), s)
  | OlderSchema, Fetch.ById _ _ => (Ok None, s)
  | Unreachable, _ => (Raise (APIError "connection refused"), s)
  end.

(** Decision logs as the store returns them, newest first: an intent the
    table does not know, a record whose time does not parse, a ["flat"] in
    lower case, and a known intent. *)
Definition log_unknown : dict :=
  [ ("created_at", VStr "2024-01-01T12:36:00+00:00");
    ("intent", VStr "UNKNOWN_X"); ("market_price", VInt 110) ]%string.

Definition log_bad_time : dict :=
  [ ("created_at", VStr "not-a-date");
    ("intent", VStr "ENTER_LONG"); ("market_price", VInt 108) ]%string.

Definition log_flat : dict :=
  [ ("created_at", VStr "2024-01-01T12:35:00+00:00");
    ("intent", VStr "flat"); ("market_price", VInt 105) ]%string.

Definition log_enter : dict :=
  [ ("created_at", VStr "2024-01-01T12:34:56.789+00:00");
    ("intent", VStr "ENTER_LONG"); ("market_price", VInt 100) ]%string.

Definition sample_logs : list dict :=
  [log_unknown; log_bad_time; log_flat; log_enter].

(** The rows of the chart those logs give. *)
Definition row_enter : Timeline.chart_row :=
  {| Timeline.source := log_enter; Timeline.created_at := 1704112496789000000;
     Timeline.intent_norm := "enter_long"; Timeline.market_price := Some 100%float |}.

Definition row_flat : Timeline.chart_row :=
  {| Timeline.source := log_flat; Timeline.created_at := 1704112500000000000;
     Timeline.intent_norm := "flat"; Timeline.market_price := Some 105%float |}.

Definition row_unknown : Timeline.chart_row :=
  {| Timeline.source := log_unknown; Timeline.created_at := 1704112560000000000;
     Timeline.intent_norm := "UNKNOWN_X"; Timeline.market_price := Some 110%float |}.

(** Position entries in the two schemas. *)
Definition legacy_key : string := "BTC/USDT:USDT_buy".

Definition legacy_zero_leverage : dict :=
  [ ("qty", VInt 1000); ("entry_price", VInt 100); ("leverage", VInt 0) ]%string.

Definition legacy_text_leverage : dict :=
  [ ("qty", VInt 1000); ("entry_price", VInt 100); ("leverage", VStr "0") ]%string.

Definition current_key : string := "BTC/USDT:USDT".

Definition current_long : dict :=
  [ ("side", VStr "long"); ("notional_usdt", VInt 1000);
    ("entry_price", VInt 100); ("leverage", VInt 10) ]%string.

Definition current_short : dict :=
  [ ("side", VStr "SHORT"); ("notional_usdt", VInt 1000);
    ("entry_price", VInt 100); ("leverage", VInt 10) ]%string.

End Sample.

(** ** The specification's wording, as definitions to compare the code with *)

Module Spec.
Import Py Positions.

(** "collateral = notional / leverage when leverage is not 0, else 0" *)
Definition collateral_formula (notional leverage : float) : float :=
  if (leverage =? 0)%float then 0%float else (notional / leverage)%float.

(** "pnl = (latest_price - entry) / entry * notional for long,
    (entry - latest_price) / entry * notional for short; 0 if latest_price
    or entry is absent/zero" *)
Definition pnl_formula (latest_price : option float) (entry notional : float)
    (long : bool) : float :=
  match latest_price with
  | None => 0%float
  | Some lp =>
      if (lp =? 0)%float || (entry =? 0)%float then 0%float
      else if long then ((lp - entry) / entry * notional)%float
      else ((entry - lp) / entry * notional)%float
  end.

(** "roi_pct = pnl / collateral * 100 if collateral > 0, else 0" *)
Definition roi_formula (pnl collateral : float) : float :=
  if (0 <? collateral)%float then (pnl / collateral * 100)%float else 0%float.

(** "the field, or the default when the field is missing or falsy" *)
Definition field_or (pos : dict) (k : string) (default : value) : value :=
  match get pos k with
  | Some v => if truthy v then v else default
  | None => default
  end.

(** "If entry has notional_usdt or side: current variant" *)
Definition is_current (pos : dict) : bool :=
  contains_key pos "notional_usdt" || contains_key pos "side".

(** "the key contains the case-insensitive substring buy" *)
Definition key_says_buy (key : string) : Prop :=
  exists before after : string,
    lower key = (before ++ "buy" ++ after)%string.

(** Two floats that are the same number: equal as [==] has it (the two
    zeros are), or both NaN. *)
Definition same_number (a b : float) : bool :=
  (a =? b)%float || (is_nan a && is_nan b).

(** A zero as a JSON number. *)
Definition is_zero_number (v : value) : bool :=
  match v with
  | VInt z => (z =? 0)%Z
  | VFloat f => (f =? 0)%float
  | _ => false
  end.

(** "first attempt uses preferred ordering; any exception triggers exactly
    one fallback attempt on legacy ordering; if the fallback also raises,
    the exception propagates": what a list fetcher over [table] does from a
    world in which the preferred query raises. *)
Definition falls_back_once {store : Type}
    (execute : Fetch.query -> store -> result (option (list dict)) * store)
    (fetch : Z -> Fetch.io store (list dict)) (table : string) : Prop :=
  forall (limit : Z) (w : Fetch.world store) (e1 : exn) (s1 : store),
    let preferred := Fetch.Ordered table "created_at" true limit in
    let legacy := Fetch.Ordered table "timestamp" true limit in
    execute preferred (Fetch.db w) = (Raise e1, s1) ->
    Fetch.sent (snd (fetch limit w)) = (Fetch.sent w ++ [preferred; legacy])%list /\
    (forall e2 s2, execute legacy s1 = (Raise e2, s2) ->
                   fetch limit w =
                   (Raise e2, {| Fetch.db := s2;
                                 Fetch.sent := (Fetch.sent w ++ [preferred; legacy])%list |})) /\
    (forall data s2, execute legacy s1 = (Ok data, s2) ->
                     fst (fetch limit w) = Ok (Fetch.data_or_empty data)).

(** The sign of a zero apart, the same [spec_float]. *)
Definition is_zero_sf (x : spec_float) : bool :=
  match x with
  | S754_zero _ => true
  | _ => false
  end.

Definition sf_same (x y : spec_float) : Prop :=
  x = y \/ (is_zero_sf x = true /\ is_zero_sf y = true).

Section Views.
Context {B : Builtins}.

(** "current variant: notional = notional_usdt (default 0)";
    "legacy variant: notional = qty (default 0)" *)
Definition notional_field (pos : dict) : value :=
  if is_current pos then field_or pos "notional_usdt" (VInt 0)
  else field_or pos "qty" (VInt 0).

(** "current variant: side = lower(side), default long";
    "legacy variant: side derived from whether the key contains buy" *)
Definition side_of (key : string) (pos : dict) : string :=
  if is_current pos then
    lower (py_str (match get pos "side" with
                   | Some v => v
                   | None => VStr "long"
                   end))
  else if str_in "buy" (lower key) then "long"%string
  else "short"%string.

(** The PositionView of the specification, out of the parsed numbers. *)
Definition view (latest_price : option float) (key side : string)
    (leverage entry notional : float) : row :=
  let long := String.eqb side "long" in
  let collateral := collateral_formula notional leverage in
  let pnl := pnl_formula latest_price entry notional long in
  {| Symbol := key;
     Type_ := if long then LONG else SHORT;
     Collateral := collateral;
     Leverage := leverage;
     Notional := notional;
     Entry := entry;
     PnL := pnl;
     ROI := roi_formula pnl collateral |}.

(** "the record's intent (or action) value", as the text the frame holds:
    the [intent] column when the frame has one, else the [action] column. *)
Definition intent_text (logs : list dict) (log : dict) : option string :=
  if Timeline.has_column logs "intent" then
    Some (Timeline.astype_str (Timeline.entries logs "intent") (get log "intent"))
  else if Timeline.has_column logs "action" then
    Some (Timeline.astype_str (Timeline.entries logs "action") (get log "action"))
  else None.

End Views.

End Spec.

(** ** The rest of the pass: loading and the trade history *)

Module Load.
Import Py.

(** Why a pass stops in the loading block: the two messages the script
    shows before [st.stop()]. [st.stop()] leaves the script through
    Streamlit's [StopException], which is no [Exception] and so is not
    caught by the block's own [except Exception]. *)
Inductive halt : Type :=
| RowNotFound
| ConnectionError (e : exn).

(** What the block binds when it completes. *)
Record loaded : Type := {
  portfolio : dict;
  positions : value;
  balance : float;
  logs : list dict;
  history : list dict
}.

Section Loader.
Context {B : Builtins}.
Variable store : Type.
Variable execute : Fetch.query -> store -> result (option (list dict)) * store.

(** The [try] block of the script, lines 143 to 157. *)
Definition load_data (w : Fetch.world store) : (halt + loaded) * Fetch.world store :=
  match Fetch.fetch_portfolio_state execute w with
  | (Raise e, w1) => (inl (ConnectionError e), w1)
  | (Ok None, w1) => (inl RowNotFound, w1)
  | (Ok (Some []), w1) => (inl RowNotFound, w1)
  | (Ok (Some (field :: fields)), w1) =>
      let portfolio := field :: fields in
      let positions := py_or (get_default portfolio "positions" VNone) (VDict []) in
      match py_float (py_or (get_default portfolio "balance_usdt" (VInt 0)) (VInt 0)) with
      | Raise e => (inl (ConnectionError e), w1)
      | Ok balance =>
          match Fetch.fetch_bot_logs execute 200 w1 with
          | (Raise e, w2) => (inl (ConnectionError e), w2)
          | (Ok logs, w2) =>
              match Fetch.fetch_trade_history execute 200 w2 with
              | (Raise e, w3) => (inl (ConnectionError e), w3)
              | (Ok history, w3) =>
                  (inr {| portfolio := portfolio;
                          positions := positions;
                          balance := balance;
                          logs := logs;
                          history := history |}, w3)
              end
          end
      end
  end.

End Loader.

Arguments load_data {B store} execute w.

End Load.

Module History.
Import Py.

(** [d[k] = v]: the key keeps its place when the dict has it, and is added
    last when not. *)
Fixpoint setitem (d : dict) (k : string) (v : value) : dict :=
  match d with
  | [] => [(k, v)]
  | (k', v') :: d' =>
      if String.eqb k' k then (k', v) :: d' else (k', v') :: setitem d' k v
  end.

(** The body of the loop over [history]: the trade with its [_ts] set. *)
Definition stamp (trade : dict) : dict :=
  let ts_raw :=
    py_or (py_or (get_default trade "created_at" VNone)
                 (get_default trade "timestamp" VNone)) (VStr EmptyString) in
  setitem trade "_ts" ts_raw.

(** The columns the table may show, in the order the script lists them. *)
Definition SHOWN : list string :=
  [ "_ts"; "symbol"; "side"; "entry_price"; "exit_price"; "qty"; "leverage";
    "pnl"; "fees"; "roi_pct"; "reason" ]%string.

(** A row of [df_hist]: the stamped trade and its parsed [_ts] ([None] is
    NaT). *)
Record hist_row : Type := {
  trade : dict;
  ts : option Z
}.

(** The order of [sort_values("_ts", ascending=False)]: later times first,
    NaT last. *)
Definition comes_first (a b : hist_row) : bool :=
  match ts a, ts b with
  | Some x, Some y => (y <=? x)%Z
  | Some _, None => true
  | None, Some _ => false
  | None, None => true
  end.

Fixpoint insert_hist (r : hist_row) (rows : list hist_row) : list hist_row :=
  match rows with
  | [] => [r]
  | r' :: rows' =>
      if comes_first r r' then r :: r' :: rows' else r' :: insert_hist r rows'
  end.

Fixpoint sort_desc (rows : list hist_row) : list hist_row :=
  match rows with
  | [] => []
  | r :: rows' => insert_hist r (sort_desc rows')
  end.

(** A cell of the table shown: the formatted time, NaN for [strftime] of
    NaT, or what the frame holds of a trade's field. *)
Inductive shown : Type :=
| Formatted (text : string)
| Stored (v : value)
| Missing.

Section Table.
Context {B : Builtins}.

(** [.dt.strftime("%Y-%m-%d %H:%M:%S")] on one time. *)
Variable strftime : Z -> string.

(** [df_hist] after the sort. *)
Definition df_hist (history : list dict) : list hist_row :=
  sort_desc
    (map (fun t => let t' := stamp t in
                   {| trade := t';
                      ts := Timeline.safe_to_datetime (get t' "_ts") |})
         history).

(** [show_cols]: the listed columns the frame has. *)
Definition show_cols (history : list dict) : list string :=
  filter (Timeline.has_column (map stamp history)) SHOWN.

(** The cell of a row under a column: the frame's own conversion of the
    column made of every trade's entry, at this row's entry. *)
Definition show_cell (history : list dict) (r : hist_row) (c : string) : shown :=
  if String.eqb c "_ts" then
    match ts r with
    | Some t => Formatted (strftime t)
    | None => Missing
    end
  else
    Stored (frame_cell (Timeline.entries (map stamp history) c) (get (trade r) c)).

(** [df_show]: one list of cells per trade, in the order of [show_cols]. *)
Definition df_show (history : list dict) : list (list shown) :=
  map (fun r => map (show_cell history r) (show_cols history)) (df_hist history).

End Table.

End History.

(** ** Notions the further properties are stated with *)

Module Notions.
Import Py.

(** A text of ASCII characters only: on such a text Python's [lower],
    [upper] and slices are what the model has. *)
Fixpoint is_ascii (s : string) : bool :=
  match s with
  | EmptyString => true
  | String c s' => (nat_of_ascii c <? 128) && is_ascii s'
  end.

(** The queries of the two list fetchers and of the portfolio fetcher. *)
Definition preferred (table : string) (limit : Z) : Fetch.query :=
  Fetch.Ordered table "created_at" true limit.
Definition legacy (table : string) (limit : Z) : Fetch.query :=
  Fetch.Ordered table "timestamp" true limit.
Definition portfolio_query : Fetch.query := Fetch.ById "portfolio_state" 1.

(** The answer to the portfolio query has a row with something in it. *)
Definition has_row (r : result (option (list dict))) : bool :=
  match r with
  | Ok (Some ((_ :: _) :: _)) => true
  | _ => false
  end.

(** What a list fetch may send: the preferred query, alone or followed by
    the legacy one. *)
Definition one_or_two (table : string) (limit : Z) (qs : list Fetch.query) : Prop :=
  qs = [preferred table limit] \/ qs = [preferred table limit; legacy table limit].

(** The rows of an answer, none for a null answer. *)
Definition rows_of (data : option (list dict)) : list dict :=
  match data with
  | Some rows => rows
  | None => []
  end.

(** The names each marker group selects on, group by group. *)
Definition MARKED : list (list string) :=
  [ ["enter_long"]; ["enter_short"]; ["add"]; ["reduce"]; ["flat"; "reverse"] ]%string.

(** A list with some of its elements left out: what stays is in the order
    it had. *)
Inductive in_order {A : Type} : list A -> list A -> Prop :=
| in_order_nil : in_order [] []
| in_order_skip x l l' : in_order l l' -> in_order l (x :: l')
| in_order_keep x l l' : in_order l l' -> in_order (x :: l) (x :: l').

(** The time a trade is filed under: [created_at], else [timestamp], else
    the empty text, each passed over when missing or falsy. *)
Definition raw_time (t : dict) : value :=
  let alt :=
    match get t "timestamp" with
    | Some v => if truthy v then v else VStr EmptyString
    | None => VStr EmptyString
    end in
  match get t "created_at" with
  | Some v => if truthy v then v else alt
  | None => alt
  end.

(** No later than, with NaT after every time: the order of the history
    table. *)
Definition no_later (a b : History.hist_row) : Prop :=
  match History.ts a, History.ts b with
  | Some x, Some y => (y <= x)%Z
  | Some _, None => True
  | None, Some _ => False
  | None, None => True
  end.

Section WithBuiltins.
Context {B : Builtins}.

(** Whether the chart's frame keeps the record: its time parses. *)
Definition parses (logs : list dict) (log : dict) : bool :=
  match Timeline.safe_to_datetime (Timeline.created_at_cell logs log) with
  | Some _ => true
  | None => false
  end.

End WithBuiltins.

End Notions.

(** ** More records to run the model on

    They stay within what the excerpt of the library functions answers as
    Python does. *)

Module Cases.
Import Py.

(** A legacy entry that names no leverage. *)
Definition legacy_no_leverage : dict :=
  [ ("qty", VInt 500); ("entry_price", VInt 50) ]%string.

Definition sell_key : string := "ETH/USDT:USDT_sell".

(** A legacy key written in lower case. *)
Definition lower_key : string := "btc/usdt:usdt_buy".

Definition two_positions : dict :=
  [ (Sample.current_key, VDict Sample.current_long);
    (sell_key, VDict legacy_no_leverage) ].

(** A mapping whose second entry is no dict, and one whose second entry has
    a leverage that [float] refuses. *)
Definition broken_positions : dict :=
  [ (Sample.current_key, VDict Sample.current_long);
    ("ETH/USDT:USDT", VStr "closed");
    (Sample.legacy_key, VDict Sample.legacy_zero_leverage) ]%string.

Definition leverage_in_words : dict :=
  [ ("qty", VInt 500); ("entry_price", VInt 50); ("leverage", VStr "ten") ]%string.

Definition worded_positions : dict :=
  [ (Sample.current_key, VDict Sample.current_long);
    (sell_key, VDict leverage_in_words) ].

(** Logs whose newest record has a price that [float] refuses. *)
Definition log_no_price : dict :=
  [ ("created_at", VStr "2024-01-01T12:36:00+00:00");
    ("intent", VStr "HOLD"); ("market_price", VStr "n/a") ]%string.


(** An intent in mixed case, and logs that name no intent at all. *)
Definition log_mixed_case : dict :=
  [ ("created_at", VStr "2024-01-01T12:35:00+00:00");
    ("intent", VStr "Enter_Short"); ("market_price", VInt 105) ]%string.

Definition row_mixed_case : Timeline.chart_row :=
  {| Timeline.source := log_mixed_case; Timeline.created_at := 1704112500000000000;
     Timeline.intent_norm := "enter_short"; Timeline.market_price := Some 105%float |}.

Definition log_silent : dict :=
  [ ("created_at", VStr "2024-01-01T12:35:00+00:00"); ("market_price", VInt 105) ]%string.

Definition row_silent : Timeline.chart_row :=
  {| Timeline.source := log_silent; Timeline.created_at := 1704112500000000000;
     Timeline.intent_norm := "hold"; Timeline.market_price := Some 105%float |}.

(** Closed trades as the store returns them: one filed under [timestamp],
    one whose time does not parse, one filed under [created_at]. *)
Definition trade_old : dict :=
  [ ("id", VInt 7); ("timestamp", VStr "2024-01-01T12:35:00+00:00");
    ("symbol", VStr "BTC/USDT:USDT"); ("pnl", VInt 12) ]%string.

Definition trade_bad_time : dict :=
  [ ("created_at", VStr "not-a-date"); ("symbol", VStr "ETH/USDT:USDT");
    ("side", VStr "short") ]%string.

Definition trade_new : dict :=
  [ ("created_at", VStr "2024-01-01T12:36:00+00:00");
    ("symbol", VStr "BTC/USDT:USDT"); ("reason", VStr "take profit") ]%string.

Definition demo_history : list dict := [trade_old; trade_bad_time; trade_new].


(** Two stores with a portfolio row: one in order, on which the history
    table has no [created_at] column, and one whose balance is no number. *)
Inductive demo_store : Type :=
| Healthy
| BadBalance.

Definition healthy_row : dict :=
  [ ("id", VInt 1); ("balance_usdt", VInt 1000); ("positions", VNone) ]%string.

Definition bad_balance_row : dict :=
  [ ("id", VInt 1); ("balance_usdt", VStr "n/a"); ("positions", VNone) ]%string.

Definition demo_execute (q : Fetch.query) (s : demo_store)
    : result (option (list dict)) * demo_store :=
  match q with
  | Fetch.ById _ _ =>
      (Ok (Some [match s with Healthy => healthy_row | BadBalance => bad_balance_row end]), s)
  | Fetch.Ordered table order_by _ _ =>
      if String.eqb table "bot_logs" then (Ok (Some Sample.sample_logs), s)
      else if String.eqb order_by "timestamp" then (Ok (Some demo_history), s)
      else (Raise (APIError "column does not exist"), s)
  end.

(** A rationale of 200 characters, every other one the two bytes of
    U+00E9. *)
Fixpoint times (n : nat) (s : string) : string :=
  match n with
  | 0 => EmptyString
  | S n' => (s ++ times n' s)%string
  end.

Definition long_rationale : string :=
  times 100 (String (ascii_of_nat 195) (String (ascii_of_nat 169) "x")).

Definition log_wordy : dict :=
  [ ("created_at", VStr "2024-01-01T12:36:00+00:00"); ("intent", VStr "HOLD");
    ("market_price", VInt 110); ("rationale", VStr long_rationale) ]%string.

(** An address of 74 characters. *)
Definition long_url : string :=
  "https://abcdefghijklmnopqrst.supabase.co/rest/v1/an-address-longer-than-60".

End Cases.

(** * Properties *)

Import Py Positions Spec.

(** ** Floats: the guards of the divisions, and the symmetry of signs *)

Lemma Prim2SF_zero : Prim2SF 0%float = S754_zero false.
Proof. reflexivity. Qed.

(** [c > 0] implies [c != 0]: the guard of the ROI division is enough. *)
Lemma ltb_zero_nonzero (c : float) :
  (0 <? c)%float = true -> (c =? 0)%float = false.
Proof.
  rewrite ltb_spec, eqb_spec, Prim2SF_zero.
  destruct (Prim2SF c) as [s|s| |s m e]; try destruct s; cbn; congruence.
Qed.

Lemma truediv_nonzero (a b : float) :
  (b =? 0)%float = false -> truediv a b = Ok (a / b)%float.
Proof. unfold truediv. intros ->. reflexivity. Qed.

Section SpecFloatSigns.
Variables prec emax : Z.

Lemma binary_round_aux_opp s m e l :
  SFopp (binary_round_aux prec emax s m e l) =
  binary_round_aux prec emax (negb s) m e l.
Proof.
  unfold binary_round_aux.
  destruct (shr_fexp prec emax m e l) as [mrs' e'].
  destruct (shr_fexp prec emax _ e' loc_Exact) as [mrs'' e''].
  destruct (shr_m mrs''); [reflexivity | | reflexivity].
  destruct (Z.leb e'' (Z.sub emax prec)); reflexivity.
Qed.

Lemma binary_round_opp s m e :
  SFopp (binary_round prec emax s m e) = binary_round prec emax (negb s) m e.
Proof.
  unfold binary_round.
  destruct (shl_align m e _) as [mz ez].
  apply binary_round_aux_opp.
Qed.

Lemma binary_normalize_opp m e :
  sf_same (binary_normalize prec emax (- m) e false)
          (SFopp (binary_normalize prec emax m e false)).
Proof.
  destruct m as [|p|p]; cbn [Z.opp binary_normalize].
  - right. split; reflexivity.
  - left. rewrite binary_round_opp. reflexivity.
  - left. rewrite binary_round_opp. reflexivity.
Qed.

(** [a - b] is [-(b - a)], the sign of an exact zero apart. *)
Lemma SFsub_swap a b :
  sf_same (SFsub prec emax a b) (SFopp (SFsub prec emax b a)).
Proof.
  destruct a as [sa|sa| |sa ma ea], b as [sb|sb| |sb mb eb];
    try (destruct sa); try (destruct sb);
    try (left; reflexivity); try (right; split; reflexivity);
    cbn [SFsub]; rewrite (Z.min_comm eb ea);
    match goal with
    | |- sf_same (binary_normalize _ _ ?x _ _) (SFopp (binary_normalize _ _ ?y _ _)) =>
        replace x with (- y)%Z by (cbn [cond_Zopp]; lia)
    end; apply binary_normalize_opp.
Qed.

Lemma SFdiv_opp_l x y e :
  sf_same x (SFopp y) ->
  sf_same (SFdiv prec emax x e) (SFopp (SFdiv prec emax y e)).
Proof.
  intros [-> | [Hx Hy]].
  - left.
    destruct y as [sy|sy| |sy my ey], e as [se|se| |se me ee]; try reflexivity;
      cbn [SFopp SFdiv]; try (destruct sy, se; reflexivity).
    destruct (SFdiv_core_binary prec emax (Z.pos my) ey (Z.pos me) ee) as [[mz ez] lz].
    rewrite binary_round_aux_opp. destruct sy, se; reflexivity.
  - destruct x; try discriminate. destruct y; try discriminate.
    destruct e as [se|se| |se me ee]; cbn;
      try (left; reflexivity); right; split; reflexivity.
Qed.

Lemma SFmul_opp_l x y n :
  sf_same x (SFopp y) ->
  sf_same (SFmul prec emax x n) (SFopp (SFmul prec emax y n)).
Proof.
  intros [-> | [Hx Hy]].
  - left.
    destruct y as [sy|sy| |sy my ey], n as [sn|sn| |sn mn en]; try reflexivity;
      cbn [SFopp SFmul]; try (destruct sy, sn; reflexivity).
    rewrite binary_round_aux_opp. destruct sy, sn; reflexivity.
  - destruct x; try discriminate. destruct y; try discriminate.
    destruct n as [sn|sn| |sn mn en]; cbn;
      try (left; reflexivity); right; split; reflexivity.
Qed.

End SpecFloatSigns.

Lemma SFcompare_refl x : x <> S754_nan -> SFcompare x x = Some Eq.
Proof.
  destruct x as [s|s| |s m e]; cbn; try congruence.
  - destruct s; reflexivity.
  - intros _. rewrite Z.compare_refl.
    assert (H : Pos.compare_cont Eq m m = Eq) by apply Pos.compare_cont_refl.
    rewrite H. destruct s; reflexivity.
Qed.

Lemma sf_same_eqb x y :
  sf_same x y ->
  SFeqb x y || (negb (SFeqb x x) && negb (SFeqb y y)) = true.
Proof.
  intros [-> | [Hx Hy]].
  - destruct y as [s|s| |s m e] eqn:E; try reflexivity;
      unfold SFeqb; rewrite SFcompare_refl by discriminate; reflexivity.
  - destruct x; try discriminate. destruct y; try discriminate. reflexivity.
Qed.

Lemma is_nan_opp (x : float) : is_nan (- x)%float = is_nan x.
Proof.
  unfold is_nan. rewrite !eqb_spec, opp_spec.
  destruct (Prim2SF x) as [s|s| |s m e]; try reflexivity;
    unfold SFeqb; rewrite !SFcompare_refl by discriminate; reflexivity.
Qed.

(** Two floats that are the same number and are not NaN are equal as [==]
    has it. *)
Lemma same_number_eqb (a b : float) :
  same_number a b = true -> is_nan b = false -> (a =? b)%float = true.
Proof.
  unfold same_number. intros H Hb. rewrite Hb, andb_false_r, orb_false_r in H.
  exact H.
Qed.

(** The short formula is the long one negated, on every float. *)
Lemma pnl_negated (lp entry notional : float) :
  same_number ((entry - lp) / entry * notional)%float
              (- ((lp - entry) / entry * notional))%float = true.
Proof.
  unfold same_number, is_nan.
  rewrite !eqb_spec, opp_spec, !mul_spec, !div_spec, !sub_spec.
  apply sf_same_eqb.
  apply SFmul_opp_l, SFdiv_opp_l, SFsub_swap.
Qed.

(** *** Dividing by 1.0 is exact *)

Lemma div_eucl_mul (a b : Z) : (0 < b)%Z -> Z.div_eucl (a * b) b = (a, 0%Z).
Proof.
  intros Hb.
  pose proof (Z_div_mod (a * b) b ltac:(lia)) as H.
  destruct (Z.div_eucl (a * b) b) as [q r]. destruct H as [H1 H2].
  assert (q = a) by nia. subst q. f_equal. lia.
Qed.

(** Rounding a mantissa that is already in the format changes nothing. *)
Lemma binary_round_aux_exact s m e :
  bounded prec emax m e = true ->
  binary_round_aux prec emax s (Z.pos m) e loc_Exact = S754_finite s m e.
Proof.
  unfold bounded, canonical_mantissa.
  rewrite andb_true_iff, Z.eqb_eq, Z.leb_le. intros [Hc He].
  unfold binary_round_aux, shr_fexp. cbn [Zdigits2 shr_record_of_loc].
  rewrite Hc, Z.sub_diag.
  cbn [shr shr_m loc_of_shr_record round_nearest_even Zdigits2 shr_record_of_loc].
  rewrite Hc, Z.sub_diag. cbn [shr shr_m].
  apply Z.leb_le in He. rewrite He. reflexivity.
Qed.

(** The same number with one more bit and the exponent one lower. *)
Lemma binary_round_aux_double s m e :
  bounded prec emax m e = true ->
  Z.pos (digits2_pos m) = prec ->
  (SpecFloat.emin prec emax < e)%Z ->
  binary_round_aux prec emax s (Z.pos m~0) (e - 1) loc_Exact = S754_finite s m e.
Proof.
  intros Hb Hd Hgt. rewrite <- (binary_round_aux_exact s m e Hb).
  unfold bounded, canonical_mantissa in Hb.
  rewrite andb_true_iff, Z.eqb_eq, Z.leb_le in Hb. destruct Hb as [Hc He].
  unfold binary_round_aux at 1. unfold shr_fexp at 1 2.
  cbn [Zdigits2 digits2_pos shr_record_of_loc].
  replace (fexp prec emax (Z.pos (Pos.succ (digits2_pos m)) + (e - 1)) - (e - 1))%Z
    with 1%Z.
  2:{ rewrite Pos2Z.inj_succ. unfold fexp, SpecFloat.emin, prec, emax in *. lia. }
  cbn [shr iter_pos shr_1 orb shr_m loc_of_shr_record round_nearest_even Zdigits2].
  replace (e - 1 + 1)%Z with e by lia.
  unfold binary_round_aux, shr_fexp. cbn [Zdigits2 shr_record_of_loc].
  rewrite Hc, Z.sub_diag.
  cbn [shr shr_m loc_of_shr_record round_nearest_even Zdigits2 shr_record_of_loc].
  rewrite Hc, Z.sub_diag. cbn [shr shr_m]. reflexivity.
Qed.

Lemma SFdiv_one x :
  valid_binary x = true ->
  SFdiv prec emax x (S754_finite false 4503599627370496 (-52)) = x.
Proof.
  destruct x as [s|s| |s m e]; try (destruct s; reflexivity); try reflexivity.
  cbn [SpecFloat.valid_binary SFdiv]. intros Hb.
  assert (Hb' := Hb). unfold bounded, canonical_mantissa in Hb'.
  rewrite andb_true_iff, Z.eqb_eq, Z.leb_le in Hb'. destruct Hb' as [Hc He].
  unfold SFdiv_core_binary.
  change (Zdigits2 (Z.pos 4503599627370496)) with 53%Z.
  cbn [Zdigits2].
  replace (xorb s false) with s by (destruct s; reflexivity).
  assert (Hd : (0 < Z.pos (digits2_pos m))%Z) by lia.
  assert (Hcase : (Z.pos (digits2_pos m) = 53 /\ -1074 < e)%Z \/
                  (e = -1074 /\ Z.pos (digits2_pos m) <= 53)%Z).
  { unfold fexp, SpecFloat.emin, prec, emax in Hc. lia. }
  destruct Hcase as [[Hd53 Hgt] | [He74 Hle]].
  - replace (Z.min (fexp prec emax (Z.pos (digits2_pos m) + e - (53 + -52))) (e - -52))%Z
      with (e - 1)%Z by (unfold fexp, SpecFloat.emin, prec, emax; lia).
    replace (e - -52 - (e - 1))%Z with 53%Z by lia.
    rewrite Z.shiftl_mul_pow2 by lia.
    replace (Z.pos m * 2 ^ 53)%Z with (Z.pos m~0 * 4503599627370496)%Z by lia.
    rewrite div_eucl_mul by lia.
    change (new_location 4503599627370496 0) with loc_Exact.
    apply binary_round_aux_double; assumption.
  - replace (Z.min (fexp prec emax (Z.pos (digits2_pos m) + e - (53 + -52))) (e - -52))%Z
      with e by (unfold fexp, SpecFloat.emin, prec, emax; lia).
    replace (e - -52 - e)%Z with 52%Z by lia.
    rewrite Z.shiftl_mul_pow2 by lia.
    change (2 ^ 52)%Z with 4503599627370496%Z.
    rewrite div_eucl_mul by lia.
    change (new_location 4503599627370496 0) with loc_Exact.
    apply binary_round_aux_exact; assumption.
Qed.

(** [x / 1.0] is [x], for every float. *)
Lemma div_one (x : float) : (x / 1)%float = x.
Proof.
  apply Prim2SF_inj. rewrite div_spec.
  change (Prim2SF 1%float) with (S754_finite false 4503599627370496 (-52)).
  apply SFdiv_one, Prim2SF_valid.
Qed.

(** ** The normaliser against the specification's PositionView *)

Lemma py_or_get_default (pos : dict) (k : string) (d : value) :
  py_or (get_default pos k d) d = field_or pos k d.
Proof.
  unfold py_or, get_default, field_or.
  destruct (get pos k) as [v|]; [reflexivity|].
  destruct (truthy d); reflexivity.
Qed.

Section NormalizerFacts.
Context {B : Builtins}.

Lemma collateral_of_formula n l :
  collateral_of n l = Ok (collateral_formula n l).
Proof.
  unfold collateral_of, collateral_formula, float_truthy, truediv.
  destruct (l =? 0)%float; reflexivity.
Qed.

Lemma roi_of_formula p c : roi_of p c = Ok (roi_formula p c).
Proof.
  unfold roi_of, roi_formula.
  destruct (0 <? c)%float eqn:E; [|reflexivity].
  rewrite (truediv_nonzero _ _ (ltb_zero_nonzero _ E)). reflexivity.
Qed.

Lemma pnl_of_formula lp e n side :
  pnl_of lp e n side = Ok (pnl_formula lp e n (String.eqb side "long")).
Proof.
  unfold pnl_of, pnl_formula, float_truthy.
  destruct lp as [lp|]; [|reflexivity].
  destruct (lp =? 0)%float; cbn; [reflexivity|].
  destruct (e =? 0)%float eqn:E; cbn; [reflexivity|].
  destruct (String.eqb side "long"); rewrite (truediv_nonzero _ _ E); reflexivity.
Qed.

(** The loop body is three conversions and then the view: nothing after
    the conversions can raise. *)
Lemma normalize_entry_eq lp key pos :
  normalize_entry lp key (VDict pos) =
  (lev <- py_float (field_or pos "leverage" (VInt 1)) ;;
   entry <- py_float (field_or pos "entry_price" (VInt 0)) ;;
   notional <- py_float (notional_field pos) ;;
   Ok (view lp key (side_of key pos) lev entry notional)).
Proof.
  unfold normalize_entry, notional_field, side_of, is_current.
  rewrite !py_or_get_default.
  destruct (py_float (field_or pos "leverage" (VInt 1))) as [lev|]; [|reflexivity].
  destruct (py_float (field_or pos "entry_price" (VInt 0))) as [entry|]; [|reflexivity].
  cbn [bind].
  destruct (contains_key pos "notional_usdt" || contains_key pos "side").
  - destruct (py_float (field_or pos "notional_usdt" (VInt 0))) as [n|]; [|reflexivity].
    cbn [bind]. rewrite collateral_of_formula, pnl_of_formula. cbn [bind].
    rewrite roi_of_formula. cbn [bind].
    unfold get_default. reflexivity.
  - destruct (py_float (field_or pos "qty" (VInt 0))) as [n|]; [|reflexivity].
    cbn [bind]. rewrite collateral_of_formula, pnl_of_formula. cbn [bind].
    rewrite roi_of_formula. reflexivity.
Qed.

Lemma normalize_entry_returns lp key pos lev entry notional :
  py_float (field_or pos "leverage" (VInt 1)) = Ok lev ->
  py_float (field_or pos "entry_price" (VInt 0)) = Ok entry ->
  py_float (notional_field pos) = Ok notional ->
  normalize_entry lp key (VDict pos) =
  Ok (view lp key (side_of key pos) lev entry notional).
Proof.
  intros Hl He Hn. rewrite normalize_entry_eq, Hl, He, Hn. reflexivity.
Qed.

Lemma normalize_entry_inv lp key pos r :
  normalize_entry lp key pos = Ok r ->
  exists d lev entry notional,
    pos = VDict d /\
    py_float (field_or d "leverage" (VInt 1)) = Ok lev /\
    py_float (field_or d "entry_price" (VInt 0)) = Ok entry /\
    py_float (notional_field d) = Ok notional /\
    r = view lp key (side_of key d) lev entry notional.
Proof.
  destruct pos as [| | | | | |d]; try discriminate.
  rewrite normalize_entry_eq.
  destruct (py_float (field_or d "leverage" (VInt 1))) as [lev|] eqn:Hl; [|discriminate].
  destruct (py_float (field_or d "entry_price" (VInt 0))) as [entry|] eqn:He; [|discriminate].
  destruct (py_float (notional_field d)) as [n|] eqn:Hn; [|discriminate].
  cbn [bind]. intros [= <-].
  exists d, lev, entry, n. repeat split; assumption.
Qed.

(** Every row of the result comes from an entry of the mapping. *)
Lemma normalize_items_In lp items rows r :
  normalize_items lp items = Ok rows -> In r rows ->
  exists key pos, In (key, pos) items /\ normalize_entry lp key pos = Ok r.
Proof.
  revert rows. induction items as [|[key pos] items IH]; intros rows H Hin.
  - injection H as <-. destruct Hin.
  - cbn [normalize_items] in H.
    destruct (normalize_entry lp key pos) as [r0|] eqn:E0; [|discriminate].
    destruct (normalize_items lp items) as [rows0|]; [|discriminate].
    cbn [bind] in H. injection H as <-.
    destruct Hin as [<- | Hin].
    + exists key, pos. split; [left; reflexivity | assumption].
    + destruct (IH rows0 eq_refl Hin) as (k & p & Hkp & Hr).
      exists k, p. split; [right; assumption | assumption].
Qed.

Lemma normalize_positions_In lp positions rows r :
  normalize_positions lp positions = Ok rows -> In r rows ->
  exists items key pos,
    positions = VDict items /\ In (key, pos) items /\
    normalize_entry lp key pos = Ok r.
Proof.
  unfold normalize_positions. intros H Hin.
  destruct (truthy positions).
  - destruct positions as [| | | | | |items]; try discriminate.
    cbn [negb] in H.
    destruct (normalize_items_In lp items rows r H Hin) as (k & p & Hkp & Hr).
    exists items, k, p. auto.
  - injection H as <-. destruct Hin.
Qed.

(** The rows come in the mapping's order, one per entry. *)
Lemma normalize_items_symbols lp items rows :
  normalize_items lp items = Ok rows -> map Symbol rows = map fst items.
Proof.
  revert rows. induction items as [|[key pos] items IH]; intros rows H.
  - injection H as <-. reflexivity.
  - cbn [normalize_items] in H.
    destruct (normalize_entry lp key pos) as [r|] eqn:Hr; [|discriminate].
    destruct (normalize_items lp items) as [rows0|]; [|discriminate].
    cbn [bind] in H. injection H as <-.
    destruct (normalize_entry_inv _ _ _ _ Hr) as (d & l & e & n & _ & _ & _ & _ & ->).
    cbn [map fst view Symbol]. rewrite (IH rows0 eq_refl). reflexivity.
Qed.

(** An empty mapping gives no row, whatever the price. *)
Lemma normalize_positions_empty lp : normalize_positions lp (VDict []) = Ok [].
Proof. reflexivity. Qed.

End NormalizerFacts.

(** ** Strings: what [in] decides *)

Lemma starts_with_spec p s :
  starts_with p s = true <-> exists rest, s = (p ++ rest)%string.
Proof.
  revert s. induction p as [|a p IH]; intros s; cbn.
  - split; [intros _; exists s; reflexivity | reflexivity].
  - destruct s as [|b s].
    + split; [discriminate | intros [rest H]; discriminate].
    + rewrite andb_true_iff, Ascii.eqb_eq, IH. split.
      * intros [-> [rest ->]]. exists rest. reflexivity.
      * intros [rest H]. injection H as -> ->. split; [reflexivity | exists rest; reflexivity].
Qed.

Lemma str_in_spec needle hay :
  str_in needle hay = true <->
  exists before after, hay = (before ++ needle ++ after)%string.
Proof.
  induction hay as [|c hay IH]; cbn [str_in]; rewrite orb_true_iff, starts_with_spec.
  - split.
    + intros [[rest H] | H]; [|discriminate].
      exists EmptyString, rest. exact H.
    + intros (before & after & H). left.
      destruct before as [|b before]; [|discriminate].
      exists after. exact H.
  - rewrite IH. split.
    + intros [[rest H] | (before & after & H)].
      * exists EmptyString, rest. exact H.
      * exists (String c before), after. cbn. rewrite H. reflexivity.
    + intros (before & after & H).
      destruct before as [|b before].
      * left. exists after. exact H.
      * right. cbn in H. injection H as -> ->. exists before, after. reflexivity.
Qed.

(** The two defaults of the normaliser, as floats. *)
Lemma float_of_int_defaults :
  float_of_int 1 = Ok 1%float /\ float_of_int 0 = Ok 0%float.
Proof. split; reflexivity. Qed.

(** ** Claims about the position normaliser *)

Section NormalizerClaims.
Context {B : Builtins}.

Lemma view_is_long lp key side lev entry notional :
  String.eqb (Type_ (view lp key side lev entry notional)) LONG =
  String.eqb side "long".
Proof. cbn. destruct (String.eqb side "long"); reflexivity. Qed.

(** C3. For a position entry of either variant, the row's leverage is the
    entry's [leverage] field made a float, and 1 when the field is missing
    or falsy (the number 0 included); the row's entry price is the
    [entry_price] field made a float, and 0 when the field is missing. *)
Theorem leverage_and_entry_defaults lp key pos r :
  normalize_entry lp key (VDict pos) = Ok r ->
  (get pos "leverage" = None -> Leverage r = 1%float) /\
  (forall v, get pos "leverage" = Some v -> truthy v = false ->
             Leverage r = 1%float) /\
  (forall v, get pos "leverage" = Some v -> truthy v = true ->
             py_float v = Ok (Leverage r)) /\
  (get pos "entry_price" = None -> Entry r = 0%float) /\
  (forall v, get pos "entry_price" = Some v -> truthy v = true ->
             py_float v = Ok (Entry r)).
Proof.
  intros H.
  destruct (normalize_entry_inv _ _ _ _ H) as (d & lev & entry & n & Hd & Hl & He & _ & ->).
  injection Hd as <-. unfold field_or in Hl, He. cbn [view Leverage Entry].
  repeat split.
  - intros E. rewrite E in Hl. injection Hl as <-. reflexivity.
  - intros v E F. rewrite E, F in Hl. injection Hl as <-. reflexivity.
  - intros v E T. rewrite E, T in Hl. exact Hl.
  - intros E. rewrite E in He. injection He as <-. reflexivity.
  - intros v E T. rewrite E, T in He. exact He.
Qed.

(** C5. Every row [normalize_positions] returns has the PnL of the
    specification: the long formula when the row is long, the short one
    otherwise, and 0 when the latest price is absent or zero or the entry
    price is zero (as it is when absent). *)
Theorem pnl_follows_formula lp positions rows r :
  normalize_positions lp positions = Ok rows ->
  In r rows ->
  PnL r = pnl_formula lp (Entry r) (Notional r) (String.eqb (Type_ r) LONG).
Proof.
  intros H Hin.
  destruct (normalize_positions_In _ _ _ _ H Hin) as (items & key & pos & _ & _ & Hr).
  destruct (normalize_entry_inv _ _ _ _ Hr) as (d & lev & entry & n & _ & _ & _ & _ & ->).
  rewrite view_is_long. reflexivity.
Qed.

(** C7. An entry with a [notional_usdt] or a [side] field is read as the
    current variant: its notional is [notional_usdt] (0 by default) and its
    side the lower-cased [side] field (["long"] by default). Any other entry
    is read as the legacy variant: its notional is [qty] (0 by default) and
    it is long exactly when the lower-cased key contains ["buy"], short
    otherwise. *)
Theorem variant_selection lp key pos r :
  normalize_entry lp key (VDict pos) = Ok r ->
  if contains_key pos "notional_usdt" || contains_key pos "side" then
    py_float (field_or pos "notional_usdt" (VInt 0)) = Ok (Notional r) /\
    Type_ r =
      (if String.eqb (lower (py_str (get_default pos "side" (VStr "long")))) "long"
       then LONG else SHORT)
  else
    py_float (field_or pos "qty" (VInt 0)) = Ok (Notional r) /\
    (Type_ r = LONG <-> key_says_buy key) /\
    (Type_ r = SHORT <-> ~ key_says_buy key).
Proof.
  intros H.
  destruct (normalize_entry_inv _ _ _ _ H) as (d & lev & entry & n & Hd & _ & _ & Hn & ->).
  injection Hd as <-.
  unfold notional_field, side_of, is_current in *. cbn [view Notional Type_].
  destruct (contains_key pos "notional_usdt" || contains_key pos "side").
  - split; [exact Hn | reflexivity].
  - split; [exact Hn |].
    unfold key_says_buy. rewrite <- str_in_spec.
    destruct (str_in "buy" (lower key)); cbn; split; split;
      try reflexivity; try discriminate; try congruence.
Qed.

(** C8. Two rows out of the same numbers (latest price, entry price,
    notional, leverage), one long and one short: the short row's PnL is the
    long row's PnL negated. They are the same number, NaN for NaN; and when
    the long PnL is not NaN, they are equal as Python's [==] has it. *)
Theorem short_pnl_negates_long lp k1 p1 k2 p2 r1 r2 :
  normalize_entry lp k1 p1 = Ok r1 ->
  normalize_entry lp k2 p2 = Ok r2 ->
  Entry r1 = Entry r2 ->
  Notional r1 = Notional r2 ->
  Leverage r1 = Leverage r2 ->
  Type_ r1 = LONG ->
  Type_ r2 = SHORT ->
  same_number (PnL r2) (- PnL r1)%float = true /\
  (is_nan (PnL r1) = false -> (PnL r2 =? - PnL r1)%float = true).
Proof.
  intros H1 H2 He Hn Hl T1 T2.
  assert (Hsame : same_number (PnL r2) (- PnL r1)%float = true);
    [| split; [exact Hsame |
               intros Hnan; apply (same_number_eqb _ _ Hsame);
               rewrite is_nan_opp; exact Hnan]].
  revert He Hn Hl T1 T2.
  destruct (normalize_entry_inv _ _ _ _ H1) as (d1 & l1 & e1 & n1 & _ & _ & _ & _ & ->).
  destruct (normalize_entry_inv _ _ _ _ H2) as (d2 & l2 & e2 & n2 & _ & _ & _ & _ & ->).
  cbn [view Entry Notional Leverage Type_ PnL].
  intros <- <- _ T1 T2.
  destruct (String.eqb (side_of k1 d1) "long"); [|discriminate].
  destruct (String.eqb (side_of k2 d2) "long"); [discriminate|].
  unfold pnl_formula.
  destruct lp as [lp|]; [|reflexivity].
  destruct ((lp =? 0)%float || (e1 =? 0)%float); [reflexivity|].
  apply pnl_negated.
Qed.

(** C9. A current-variant long position with entry price 100, notional
    1000 and leverage 10, at a latest price of 110, gets collateral 100,
    PnL 100 and ROI 100. *)
Theorem current_long_at_110 key pos :
  is_current pos = true ->
  lower (py_str (get_default pos "side" (VStr "long"))) = "long"%string ->
  py_float (field_or pos "entry_price" (VInt 0)) = Ok 100%float ->
  py_float (field_or pos "notional_usdt" (VInt 0)) = Ok 1000%float ->
  py_float (field_or pos "leverage" (VInt 1)) = Ok 10%float ->
  normalize_positions (Some 110%float) (VDict [(key, VDict pos)]) =
  Ok [ {| Symbol := key;
          Type_ := LONG;
          Collateral := 100;
          Leverage := 10;
          Notional := 1000;
          Entry := 100;
          PnL := 100;
          ROI := 100 |} ].
Proof.
  intros Hc Hs He Hn Hl.
  unfold normalize_positions. cbn [truthy negb normalize_items].
  rewrite (normalize_entry_returns _ _ _ 10%float 100%float 1000%float Hl He).
  - unfold side_of. rewrite Hc.
    unfold get_default in Hs. rewrite Hs. reflexivity.
  - unfold notional_field. rewrite Hc. exact Hn.
Qed.

(** C1, as the code has it. A legacy-variant entry whose [leverage] field
    is the number 0 is given the default leverage 1, since 0 is falsy: when
    its [qty] and [entry_price] convert, the row has leverage 1, its
    collateral is its notional [qty] and its ROI that of the formula
    ([pnl / collateral * 100] when the collateral is positive, else 0), and
    nothing is divided by zero. *)
Theorem zero_leverage_defaults_to_one lp key pos v qty entry :
  is_current pos = false ->
  get pos "leverage" = Some v ->
  is_zero_number v = true ->
  py_float (field_or pos "qty" (VInt 0)) = Ok qty ->
  py_float (field_or pos "entry_price" (VInt 0)) = Ok entry ->
  exists r,
    normalize_entry lp key (VDict pos) = Ok r /\
    Leverage r = 1%float /\
    Collateral r = qty /\
    Notional r = qty /\
    ROI r = roi_formula (PnL r) (Collateral r).
Proof.
  intros Hc Hv Hz Hq He.
  assert (Hl : py_float (field_or pos "leverage" (VInt 1)) = Ok 1%float).
  { unfold field_or. rewrite Hv.
    destruct v as [| |z|f| | |]; try discriminate; cbn in Hz |- *.
    - rewrite Hz. reflexivity.
    - unfold float_truthy. rewrite Hz. reflexivity. }
  eexists. split.
  - apply (normalize_entry_returns lp key pos _ _ qty Hl He).
    unfold notional_field. rewrite Hc. exact Hq.
  - cbn [view Leverage Collateral Notional ROI PnL]. repeat split.
    unfold collateral_formula.
    change (1 =? 0)%float with false. cbn iota. apply div_one.
Qed.

End NormalizerClaims.

(** *** The normaliser on the sample entries *)

Import Sample.

(** C1 does not hold as stated: with the number 0 as its leverage, the
    legacy entry below gets collateral 1000 and ROI 10, not 0 and 0. *)
Lemma zero_leverage_counterexample :
  normalize_positions (Some 110%float)
    (VDict [(legacy_key, VDict legacy_zero_leverage)]) =
  Ok [ {| Symbol := legacy_key;
          Type_ := LONG;
          Collateral := 1000;
          Leverage := 1;
          Notional := 1000;
          Entry := 100;
          PnL := 100;
          ROI := 10 |} ] /\
  (1000 =? 0)%float = false /\
  (10 =? 0)%float = false.
Proof. repeat split. Qed.

(** The guard [if lev] does work when the parsed leverage is zero, as with
    the text ["0"], which is truthy. *)
Example text_zero_leverage :
  normalize_entry (Some 110%float) legacy_key (VDict legacy_text_leverage) =
  Ok {| Symbol := legacy_key;
        Type_ := LONG;
        Collateral := 0;
        Leverage := 0;
        Notional := 1000;
        Entry := 100;
        PnL := 100;
        ROI := 0 |}.
Proof. reflexivity. Qed.

Lemma zero_leverage_defaults_to_one_witness :
  exists r,
    normalize_entry (Some 110%float) legacy_key (VDict legacy_zero_leverage) = Ok r /\
    Leverage r = 1%float /\
    Collateral r = 1000%float /\
    Notional r = 1000%float /\
    ROI r = roi_formula (PnL r) (Collateral r).
Proof.
  apply (zero_leverage_defaults_to_one (Some 110%float) legacy_key
           legacy_zero_leverage (VInt 0) 1000%float 100%float);
    reflexivity.
Defined.

Lemma leverage_and_entry_defaults_witness :
  let r := {| Symbol := legacy_key; Type_ := LONG; Collateral := 1000;
              Leverage := 1; Notional := 1000; Entry := 100;
              PnL := 100; ROI := 10 |} in
  normalize_entry (Some 110%float) legacy_key (VDict legacy_zero_leverage) = Ok r /\
  Leverage r = 1%float /\
  py_float (VInt 100) = Ok (Entry r).
Proof.
  intros r.
  assert (H : normalize_entry (Some 110%float) legacy_key
                (VDict legacy_zero_leverage) = Ok r) by reflexivity.
  split; [exact H|].
  destruct (leverage_and_entry_defaults _ _ _ _ H) as (_ & Hfalsy & _ & _ & Hentry).
  split.
  - apply (Hfalsy (VInt 0)); reflexivity.
  - apply (Hentry (VInt 100)); reflexivity.
Defined.

Lemma pnl_follows_formula_witness :
  let r := {| Symbol := current_key; Type_ := SHORT; Collateral := 100;
              Leverage := 10; Notional := 1000; Entry := 100;
              PnL := -100; ROI := -100 |} in
  normalize_positions (Some 110%float)
    (VDict [(current_key, VDict current_short)]) = Ok [r] /\
  PnL r = pnl_formula (Some 110%float) 100 1000 false.
Proof.
  intros r.
  assert (H : normalize_positions (Some 110%float)
                (VDict [(current_key, VDict current_short)]) = Ok [r])
    by reflexivity.
  split; [exact H|].
  exact (pnl_follows_formula _ _ _ r H (or_introl eq_refl)).
Defined.

Lemma variant_selection_witness :
  let r := {| Symbol := legacy_key; Type_ := LONG; Collateral := 1000;
              Leverage := 1; Notional := 1000; Entry := 100;
              PnL := 100; ROI := 10 |} in
  normalize_entry (Some 110%float) legacy_key (VDict legacy_zero_leverage) = Ok r /\
  py_float (VInt 1000) = Ok (Notional r) /\
  (Type_ r = LONG <-> key_says_buy legacy_key) /\
  (Type_ r = SHORT <-> ~ key_says_buy legacy_key).
Proof.
  intros r.
  assert (H : normalize_entry (Some 110%float) legacy_key
                (VDict legacy_zero_leverage) = Ok r) by reflexivity.
  split; [exact H|].
  exact (variant_selection _ _ _ _ H).
Defined.

Lemma short_pnl_negates_long_witness :
  let long := {| Symbol := current_key; Type_ := LONG; Collateral := 100;
                 Leverage := 10; Notional := 1000; Entry := 100;
                 PnL := 100; ROI := 100 |} in
  let short := {| Symbol := current_key; Type_ := SHORT; Collateral := 100;
                  Leverage := 10; Notional := 1000; Entry := 100;
                  PnL := -100; ROI := -100 |} in
  normalize_entry (Some 110%float) current_key (VDict current_long) = Ok long /\
  normalize_entry (Some 110%float) current_key (VDict current_short) = Ok short /\
  same_number (PnL short) (- PnL long)%float = true /\
  (PnL short =? - PnL long)%float = true.
Proof.
  intros long short.
  assert (H1 : normalize_entry (Some 110%float) current_key
                 (VDict current_long) = Ok long) by reflexivity.
  assert (H2 : normalize_entry (Some 110%float) current_key
                 (VDict current_short) = Ok short) by reflexivity.
  split; [exact H1|]. split; [exact H2|].
  destruct (short_pnl_negates_long _ _ _ _ _ _ _ H1 H2
              eq_refl eq_refl eq_refl eq_refl eq_refl) as [Hsame Heq].
  split; [exact Hsame | exact (Heq eq_refl)].
Defined.

Lemma current_long_at_110_witness :
  normalize_positions (Some 110%float)
    (VDict [(current_key, VDict current_long)]) =
  Ok [ {| Symbol := current_key;
          Type_ := LONG;
          Collateral := 100;
          Leverage := 10;
          Notional := 1000;
          Entry := 100;
          PnL := 100;
          ROI := 100 |} ].
Proof.
  apply (current_long_at_110 current_key current_long); reflexivity.
Defined.

(** ** Claims about the list fetchers *)

Section FetchClaims.
Variable store : Type.
Variable execute : Fetch.query -> store -> result (option (list dict)) * store.

(** When the preferred query answers, it is the only one sent. *)
Lemma fetch_bot_logs_preferred limit w data s1 :
  execute (Fetch.Ordered "bot_logs" "created_at" true limit) (Fetch.db w) = (Ok data, s1) ->
  Fetch.fetch_bot_logs execute limit w =
  (Ok (Fetch.data_or_empty data),
   {| Fetch.db := s1;
      Fetch.sent := Fetch.sent w ++ [Fetch.Ordered "bot_logs" "created_at" true limit] |}).
Proof.
  intros H. unfold Fetch.fetch_bot_logs, Fetch.run. rewrite H. reflexivity.
Qed.

(** C4. Both list fetchers: when the query ordered by [created_at] raises,
    exactly one more query is sent, the one ordered by [timestamp]; when
    that one raises too, its exception is the fetcher's outcome (no empty
    list in its place), and when it answers, its data is. *)
Theorem list_fetchers_fall_back_once :
  falls_back_once execute (Fetch.fetch_bot_logs execute) "bot_logs" /\
  falls_back_once execute (Fetch.fetch_trade_history execute) "trade_history".
Proof.
  split; intros limit w e1 s1 preferred legacy H;
    unfold Fetch.fetch_bot_logs, Fetch.fetch_trade_history, Fetch.run;
    fold preferred; fold legacy; rewrite H; cbn [Fetch.db Fetch.sent];
    destruct (execute legacy s1) as [[data|e2] s2] eqn:E2;
    cbn [snd fst Fetch.sent]; rewrite <- app_assoc; cbn [app];
    (split; [reflexivity | split; intros ? ? [= <- <-]; reflexivity]).
Qed.

End FetchClaims.

Lemma list_fetchers_fall_back_once_witness :
  Fetch.fetch_bot_logs sample_execute 200
    {| Fetch.db := Unreachable; Fetch.sent := [] |} =
  (Raise (APIError "connection refused"),
   {| Fetch.db := Unreachable;
      Fetch.sent := [ Fetch.Ordered "bot_logs" "created_at" true 200;
                      Fetch.Ordered "bot_logs" "timestamp" true 200 ] |}) /\
  fst (Fetch.fetch_trade_history sample_execute 200
         {| Fetch.db := OlderSchema; Fetch.sent := [] |}) = Ok older_rows.
Proof.
  destruct (list_fetchers_fall_back_once sample_store sample_execute) as [Hlogs Hhist].
  split.
  - destruct (Hlogs 200%Z {| Fetch.db := Unreachable; Fetch.sent := [] |}
                (APIError "connection refused") Unreachable eq_refl)
      as (_ & Hraise & _).
    exact (Hraise (APIError "connection refused") Unreachable eq_refl).
  - destruct (Hhist 200%Z {| Fetch.db := OlderSchema; Fetch.sent := [] |}
                (APIError "column does not exist") OlderSchema eq_refl)
      as (_ & _ & Hanswer).
    exact (Hanswer (Some older_rows) OlderSchema eq_refl).
Defined.

(** ** Claims about the latest price *)

Section LatestPriceClaims.
Context {B : Builtins}.

(** Without a latest price every PnL is the float 0. *)
Lemma no_price_no_pnl positions rows r :
  normalize_positions None positions = Ok rows -> In r rows -> PnL r = 0%float.
Proof.
  intros H Hin.
  destruct (normalize_positions_In _ _ _ _ H Hin) as (items & key & pos & _ & _ & Hr).
  destruct (normalize_entry_inv _ _ _ _ Hr) as (d & lev & entry & n & _ & _ & _ & _ & ->).
  reflexivity.
Qed.

(** The session's latest price depends on the first record alone. *)
Lemma latest_price_first log rest :
  Script.latest_price (log :: rest) = Script.latest_price [log].
Proof. reflexivity. Qed.

(** C10. In one pass the metric and the normaliser read the same session
    value, and that value is the [market_price] of the first record of the
    logs as fetched, made a float; it is [None] when there is no record or
    the first one has no [market_price] (or a null one), and then the metric
    reads "N/A" and every row's PnL is 0. *)
Theorem latest_price_is_first_log positions logs t :
  Script.render_top positions logs = Ok t ->
  Script.latest_price logs = Ok (Script.session_latest_price t) /\
  Script.latest_metric t = Script.latest_price_metric (Script.session_latest_price t) /\
  normalize_positions (Script.session_latest_price t) positions = Ok (Script.pos_rows t) /\
  match logs with
  | [] => Script.session_latest_price t = None
  | log :: _ =>
      match get log "market_price" with
      | None => Script.session_latest_price t = None
      | Some VNone => Script.session_latest_price t = None
      | Some v => exists f, py_float v = Ok f /\ Script.session_latest_price t = Some f
      end
  end /\
  (Script.session_latest_price t = None ->
   Script.latest_metric t = Script.NA /\
   forall r, In r (Script.pos_rows t) -> PnL r = 0%float).
Proof.
  unfold Script.render_top. intros H.
  destruct (Script.latest_price logs) as [p|] eqn:Hp; [|discriminate].
  cbn [bind] in H.
  destruct (Page.open_positions positions) as [count|]; [|discriminate].
  cbn [bind] in H.
  destruct (Script.unrealized_pnl p positions) as [u|]; [|discriminate].
  cbn [bind] in H.
  destruct (normalize_positions p positions) as [rows|] eqn:Hrows; [|discriminate].
  cbn [bind] in H. injection H as <-.
  cbn [Script.session_latest_price Script.latest_metric Script.pos_rows].
  split; [reflexivity|]. split; [reflexivity|]. split; [exact Hrows|]. split.
  - unfold Script.latest_price, get_default in Hp.
    destruct logs as [|log rest].
    + injection Hp as <-. reflexivity.
    + destruct (get log "market_price") as [v|].
      * destruct v; cbn [bind] in Hp;
          try (injection Hp as <-; reflexivity);
          match type of Hp with
          | context [py_float ?v] =>
              destruct (py_float v) as [x|] eqn:Hx; [|discriminate]
          end;
          cbn [bind] in Hp; injection Hp as <-; exists x; split; reflexivity.
      * injection Hp as <-. reflexivity.
  - intros ->. split; [reflexivity|].
    intros r Hin. exact (no_price_no_pnl _ _ _ Hrows Hin).
Qed.

End LatestPriceClaims.

Lemma latest_price_is_first_log_witness :
  let rows := [ {| Symbol := current_key; Type_ := LONG; Collateral := 100;
                   Leverage := 10; Notional := 1000; Entry := 100;
                   PnL := 100; ROI := 100 |} ] in
  let t := {| Script.session_latest_price := Some 110%float;
              Script.latest_metric := Script.Dollars 110;
              Script.unrealized := 100;
              Script.pos_rows := rows |} in
  Script.render_top (VDict [(current_key, VDict current_long)]) sample_logs = Ok t /\
  Script.latest_price sample_logs = Ok (Some 110%float) /\
  normalize_positions (Some 110%float) (VDict [(current_key, VDict current_long)]) = Ok rows.
Proof.
  intros rows t.
  assert (H : Script.render_top (VDict [(current_key, VDict current_long)])
                sample_logs = Ok t) by reflexivity.
  split; [exact H|].
  destruct (latest_price_is_first_log _ _ _ H) as (Hp & _ & Hrows & _).
  split; [exact Hp | exact Hrows].
Defined.

(** With no log at all there is no price: "N/A", and no PnL. *)
Example no_logs_no_price :
  Script.render_top (VDict [(current_key, VDict current_long)]) [] =
  Ok {| Script.session_latest_price := None;
        Script.latest_metric := Script.NA;
        Script.unrealized := 0;
        Script.pos_rows :=
          [ {| Symbol := current_key; Type_ := LONG; Collateral := 100;
               Leverage := 10; Notional := 1000; Entry := 100;
               PnL := 0; ROI := 0 |} ] |}.
Proof. reflexivity. Qed.

(** ** The decision timeline: the frame, its order and its rows *)

Import Timeline.

Lemma insert_row_In x r rows :
  In x (insert_row r rows) <-> x = r \/ In x rows.
Proof.
  induction rows as [|r' rows IH]; cbn.
  - intuition congruence.
  - destruct (created_at r <=? created_at r')%Z; cbn.
    + intuition congruence.
    + rewrite IH. intuition congruence.
Qed.

Lemma sort_values_In x rows : In x (sort_values rows) <-> In x rows.
Proof.
  induction rows as [|r rows IH]; cbn; [reflexivity|].
  rewrite insert_row_In, IH. intuition congruence.
Qed.

Lemma insert_row_perm r rows : Permutation (insert_row r rows) (r :: rows).
Proof.
  induction rows as [|r' rows IH]; cbn; [reflexivity|].
  destruct (created_at r <=? created_at r')%Z; [reflexivity|].
  rewrite IH. apply perm_swap.
Qed.

(** Sorting keeps the rows, each as many times as it was there. *)
Lemma sort_values_perm rows : Permutation (sort_values rows) rows.
Proof.
  induction rows as [|r rows IH]; cbn; [reflexivity|].
  rewrite insert_row_perm, IH. reflexivity.
Qed.

Lemma insert_row_sorted r rows :
  Sorted earlier rows -> Sorted earlier (insert_row r rows).
Proof.
  induction rows as [|r' rows IH]; intros Hs; cbn.
  - repeat constructor.
  - destruct (created_at r <=? created_at r')%Z eqn:E.
    + constructor; [exact Hs|]. constructor. unfold earlier. lia.
    + inversion Hs as [|? ? Hs' Hhd]; subst.
      constructor; [exact (IH Hs')|].
      destruct rows as [|r'' rows]; cbn.
      * constructor. unfold earlier. lia.
      * destruct (created_at r <=? created_at r'')%Z.
        -- constructor. unfold earlier. lia.
        -- inversion Hhd; subst. constructor. assumption.
Qed.

(** The chart's rows are in ascending order of time. *)
Lemma sort_values_sorted rows : Sorted earlier (sort_values rows).
Proof.
  induction rows as [|r rows IH]; cbn; [constructor|].
  apply insert_row_sorted, IH.
Qed.

Section TimelineFacts.
Context {B : Builtins}.

Lemma dropna_In row logs all :
  In row (dropna logs all) <->
  exists log t,
    In log logs /\
    safe_to_datetime (created_at_cell all log) = Some t /\
    row = {| source := log;
             created_at := t;
             intent_norm := intent_norm_cell all log;
             market_price := market_price_cell log |}.
Proof.
  revert row. induction logs as [|log logs IH]; intros row; cbn [dropna].
  - split; [intros [] | intros (l & t & [] & _)].
  - destruct (safe_to_datetime (created_at_cell all log)) as [t|] eqn:E;
      cbn [In]; rewrite IH; split.
    + intros [<- | (l & t' & Hin & Ht & ->)].
      * exists log, t. repeat split; auto.
      * exists l, t'. repeat split; auto.
    + intros (l & t' & [<- | Hin] & Ht & ->).
      * left. rewrite E in Ht. injection Ht as <-. reflexivity.
      * right. exists l, t'. repeat split; auto.
    + intros (l & t' & Hin & Ht & ->). exists l, t'. repeat split; auto.
    + intros (l & t' & [<- | Hin] & Ht & ->); [congruence|].
      exists l, t'. repeat split; auto.
Qed.

(** A row of the chart is a record of the logs whose time parsed. *)
Lemma df_chart_In row logs :
  In row (df_chart logs) ->
  In (source row) logs /\
  safe_to_datetime (created_at_cell logs (source row)) = Some (created_at row) /\
  intent_norm row = intent_norm_cell logs (source row).
Proof.
  unfold df_chart. rewrite sort_values_In, dropna_In.
  intros (log & t & Hin & Ht & ->). cbn. auto.
Qed.


(** What the groups select on. *)
Lemma marker_group_intent g row logs :
  In g (marker_groups logs) -> In row g ->
  In (intent_norm row)
     ["enter_long"; "enter_short"; "add"; "reduce"; "flat"; "reverse"]%string.
Proof.
  unfold marker_groups, buys, shorts, adds, reduces, exits, intent_is.
  cbn [In]. intros [<- | [<- | [<- | [<- | [<- | []]]]]];
    rewrite filter_In; try rewrite orb_true_iff; rewrite ?String.eqb_eq;
    intuition.
Qed.


End TimelineFacts.

(** ** Claims about the decision timeline *)

Section TimelineClaims.
Context {B : Builtins}.




End TimelineClaims.

(** *** The timeline on the sample logs *)

Example sample_chart : df_chart sample_logs = [row_enter; row_flat; row_unknown].
Proof. reflexivity. Qed.

Example sample_markers :
  marker_groups sample_logs = [[row_enter]; []; []; []; [row_flat]].
Proof. reflexivity. Qed.





(** * Further properties of the code *)

Import Notions.

(** ** The normaliser as a whole *)

Section NormalizerWhole.
Context {B : Builtins}.

Lemma normalize_items_Forall2 lp items rows :
  normalize_items lp items = Ok rows <->
  Forall2 (fun kp r => normalize_entry lp (fst kp) (snd kp) = Ok r) items rows.
Proof.
  revert rows. induction items as [|[key pos] items IH]; intros rows; cbn [normalize_items].
  - split.
    + intros [= <-]. constructor.
    + intros H. inversion H. reflexivity.
  - split.
    + destruct (normalize_entry lp key pos) as [r|] eqn:Hr; [|discriminate].
      destruct (normalize_items lp items) as [rows0|] eqn:H0; [|discriminate].
      cbn [bind]. intros [= <-]. constructor; [exact Hr|].
      apply IH. reflexivity.
    + intros H. inversion H as [|kp r items' rows' Hr Hrest]; subst.
      cbn [fst snd] in Hr. rewrite Hr. cbn [bind].
      apply IH in Hrest. rewrite Hrest. reflexivity.
Qed.

(** X1. All or nothing: the call returns rows exactly when every entry of the
    mapping gives its row, and then the rows are those, entry by entry. *)
Theorem normalize_positions_all_or_nothing lp items rows :
  normalize_positions lp (VDict items) = Ok rows <->
  Forall2 (fun kp r => normalize_entry lp (fst kp) (snd kp) = Ok r) items rows.
Proof.
  rewrite <- normalize_items_Forall2.
  unfold normalize_positions. destruct items; reflexivity.
Qed.

Lemma normalize_items_raise lp before key pos after rows e :
  normalize_items lp before = Ok rows ->
  normalize_entry lp key pos = Raise e ->
  normalize_items lp (before ++ (key, pos) :: after) = Raise e.
Proof.
  revert rows. induction before as [|[k p] before IH]; intros rows Hb He;
    cbn [app normalize_items].
  - rewrite He. reflexivity.
  - cbn [normalize_items] in Hb.
    destruct (normalize_entry lp k p) as [r|]; [|discriminate].
    destruct (normalize_items lp before) as [rows0|] eqn:H0; [|discriminate].
    cbn [bind]. rewrite (IH rows0 eq_refl He). reflexivity.
Qed.

(** X2. The first entry that raises decides the outcome: its exception is the
    call's, and the rows of the entries before it are lost. *)
Theorem first_failing_entry_raises lp before key pos after rows e :
  normalize_items lp before = Ok rows ->
  normalize_entry lp key pos = Raise e ->
  normalize_positions lp (VDict (before ++ (key, pos) :: after)) = Raise e.
Proof.
  intros Hb He. unfold normalize_positions.
  destruct (before ++ (key, pos) :: after) eqn:E.
  - destruct before; discriminate.
  - cbn [truthy negb]. rewrite <- E.
    exact (normalize_items_raise _ _ _ _ after _ _ Hb He).
Qed.

Lemma py_float_raises v e :
  py_float v = Raise e -> e = TypeError \/ e = ValueError \/ e = OverflowError.
Proof.
  destruct v as [| b|z|f|s|l|d]; cbn [py_float];
    try (intros [= <-]; auto); try discriminate.
  - unfold float_of_int.
    destruct (binary_normalize prec emax z 0 false); try discriminate.
    intros [= <-]. auto.
  - destruct (float_of_str s); [discriminate|]. intros [= <-]. auto.
Qed.

Lemma normalize_entry_raises lp key pos e :
  normalize_entry lp key pos = Raise e ->
  e = AttributeError \/ e = TypeError \/ e = ValueError \/ e = OverflowError.
Proof.
  destruct pos as [| | | | | |d]; try (intros [= <-]; auto).
  rewrite normalize_entry_eq.
  destruct (py_float (field_or d "leverage" (VInt 1))) as [l|e1] eqn:Hl.
  2:{ intros [= <-]. right. exact (py_float_raises _ _ Hl). }
  destruct (py_float (field_or d "entry_price" (VInt 0))) as [en|e2] eqn:He.
  2:{ intros [= <-]. right. exact (py_float_raises _ _ He). }
  destruct (py_float (notional_field d)) as [n|e3] eqn:Hn.
  2:{ intros [= <-]. right. exact (py_float_raises _ _ Hn). }
  discriminate.
Qed.

(** X3. Whatever the mapping holds, the call never raises [ZeroDivisionError]:
    when it raises, it is for a value that has no [get] or [items]
    ([AttributeError]) or that [float] refuses. *)
Theorem normalize_positions_raises_only lp positions e :
  normalize_positions lp positions = Raise e ->
  e <> ZeroDivisionError /\
  (e = AttributeError \/ e = TypeError \/ e = ValueError \/ e = OverflowError).
Proof.
  intros H.
  assert (Hkind : e = AttributeError \/ e = TypeError \/
                  e = ValueError \/ e = OverflowError).
  { unfold normalize_positions in H.
    destruct (truthy positions); cbn [negb] in H; [|discriminate].
    destruct positions as [| | | | | |items]; try (injection H as <-; auto).
    clear -H. induction items as [|[key pos] items IH]; [discriminate|].
    cbn [normalize_items] in H.
    destruct (normalize_entry lp key pos) as [r|e1] eqn:Hr.
    - destruct (normalize_items lp items) as [rows|e2]; [discriminate|].
      cbn [bind] in H. apply IH. exact H.
    - cbn [bind] in H. injection H as <-.
      exact (normalize_entry_raises _ _ _ _ Hr). }
  split; [|exact Hkind].
  destruct Hkind as [-> | [-> | [-> | ->]]]; discriminate.
Qed.

(** X4. The rows come in the mapping's order, one per entry, each under its
    key. *)
Theorem rows_follow_the_mapping lp items rows :
  normalize_positions lp (VDict items) = Ok rows ->
  map Symbol rows = map fst items.
Proof.
  unfold normalize_positions. destruct items as [|kp items].
  - intros [= <-]. reflexivity.
  - cbn [truthy negb]. apply normalize_items_symbols.
Qed.

(** X5. The invariants of a row: its collateral is its notional over its
    leverage (0 for a zero leverage), its ROI is its PnL over its collateral
    in percent (0 unless the collateral is positive), and its type is one of
    the two labels. *)
Theorem row_invariants lp positions rows r :
  normalize_positions lp positions = Ok rows ->
  In r rows ->
  Collateral r = collateral_formula (Notional r) (Leverage r) /\
  ROI r = roi_formula (PnL r) (Collateral r) /\
  (Type_ r = LONG \/ Type_ r = SHORT).
Proof.
  intros H Hin.
  destruct (normalize_positions_In _ _ _ _ H Hin) as (items & key & pos & _ & _ & Hr).
  destruct (normalize_entry_inv _ _ _ _ Hr) as (d & lev & entry & n & _ & _ & _ & _ & ->).
  cbn [view Collateral ROI PnL Notional Leverage Type_].
  repeat split. destruct (String.eqb (side_of key d) "long"); auto.
Qed.

(** X6. An entry of either variant whose leverage is missing or falsy counts
    with leverage 1: its collateral is its whole notional. *)
Theorem no_leverage_full_collateral lp key pos r :
  normalize_entry lp key (VDict pos) = Ok r ->
  truthy (get_default pos "leverage" VNone) = false ->
  Leverage r = 1%float /\ Collateral r = Notional r.
Proof.
  intros H Hfalsy.
  destruct (normalize_entry_inv _ _ _ _ H) as (d & lev & entry & n & Hd & Hl & _ & _ & ->).
  injection Hd as <-.
  assert (Hlev : lev = 1%float).
  { unfold field_or in Hl. unfold get_default in Hfalsy.
    destruct (get pos "leverage") as [v|].
    - rewrite Hfalsy in Hl. injection Hl as <-. reflexivity.
    - injection Hl as <-. reflexivity. }
  subst lev. cbn [view Leverage Collateral Notional]. split; [reflexivity|].
  unfold collateral_formula. change (1 =? 0)%float with false. cbn iota.
  apply div_one.
Qed.

Lemma lower_upper_char c : lower_char (upper_char c) = lower_char c.
Proof. destruct c as [[] [] [] [] [] [] [] []]; reflexivity. Qed.

Lemma lower_upper s : lower (upper s) = lower s.
Proof.
  unfold lower, upper. induction s as [|c s IH]; cbn; [reflexivity|].
  rewrite lower_upper_char. f_equal. exact IH.
Qed.

(** X7. The case of the key does not matter to the side: an entry filed under
    the upper-cased key gets the same row, its symbol apart (keys of ASCII
    characters, where the model's case mapping is Python's). *)
Theorem key_case_is_ignored lp key pos r :
  is_ascii key = true ->
  normalize_entry lp key (VDict pos) = Ok r ->
  normalize_entry lp (upper key) (VDict pos) =
  Ok {| Symbol := upper key;
        Type_ := Type_ r;
        Collateral := Collateral r;
        Leverage := Leverage r;
        Notional := Notional r;
        Entry := Entry r;
        PnL := PnL r;
        ROI := ROI r |}.
Proof.
  intros _ H.
  destruct (normalize_entry_inv _ _ _ _ H) as (d & lev & entry & n & Hd & Hl & He & Hn & ->).
  injection Hd as <-.
  rewrite (normalize_entry_returns _ _ _ _ _ _ Hl He Hn).
  assert (Hside : side_of (upper key) pos = side_of key pos).
  { unfold side_of. rewrite lower_upper. reflexivity. }
  rewrite Hside. reflexivity.
Qed.

End NormalizerWhole.

(** ** The metrics above the tables *)

Section MetricFacts.
Context {B : Builtins}.

Lemma sum_of_zeros (rows : list row) :
  (forall r, In r rows -> PnL r = 0%float) ->
  fold_left (fun acc r => (acc + PnL r)%float) rows 0%float = 0%float.
Proof.
  induction rows as [|r rows IH]; intros H; cbn [fold_left]; [reflexivity|].
  rewrite (H r (or_introl eq_refl)).
  change (0 + 0)%float with 0%float.
  apply IH. intros r' Hin. apply H. right. exact Hin.
Qed.

Lemma zero_price_no_pnl p positions rows r :
  float_truthy p = false ->
  normalize_positions (Some p) positions = Ok rows -> In r rows ->
  PnL r = 0%float.
Proof.
  intros Hp H Hin.
  destruct (normalize_positions_In _ _ _ _ H Hin) as (items & key & pos & _ & _ & Hr).
  destruct (normalize_entry_inv _ _ _ _ Hr) as (d & lev & entry & n & _ & _ & _ & _ & ->).
  cbn [view PnL]. unfold pnl_formula.
  unfold float_truthy in Hp. apply negb_false_iff in Hp. rewrite Hp. reflexivity.
Qed.

(** X8. The "Unrealized PnL" metric is the sum of the PnL column of the
    positions table, in the rows' order, whatever the price and the
    positions are (with no usable price both are zero). *)
Theorem unrealized_is_the_sum positions logs t :
  Script.render_top positions logs = Ok t ->
  Script.unrealized t =
  fold_left (fun acc r => (acc + PnL r)%float) (Script.pos_rows t) 0%float.
Proof.
  unfold Script.render_top. intros H.
  destruct (Script.latest_price logs) as [p|]; [|discriminate].
  cbn [bind] in H.
  destruct (Page.open_positions positions) as [count|]; [|discriminate].
  cbn [bind] in H.
  destruct (Script.unrealized_pnl p positions) as [u|] eqn:Hu; [|discriminate].
  cbn [bind] in H.
  destruct (normalize_positions p positions) as [rows|] eqn:Hrows; [|discriminate].
  cbn [bind] in H. injection H as <-.
  cbn [Script.unrealized Script.pos_rows].
  unfold Script.unrealized_pnl in Hu.
  destruct p as [p|].
  - destruct (truthy positions) eqn:Ht.
    + destruct (float_truthy p) eqn:Hp; cbn [andb] in Hu.
      * rewrite Hrows in Hu. cbn [bind] in Hu. injection Hu as <-. reflexivity.
      * injection Hu as <-. symmetry. apply sum_of_zeros.
        intros r Hin. exact (zero_price_no_pnl _ _ _ _ Hp Hrows Hin).
    + cbn [andb] in Hu. injection Hu as <-.
      unfold normalize_positions in Hrows. rewrite Ht in Hrows.
      injection Hrows as <-. reflexivity.
  - injection Hu as <-. symmetry. apply sum_of_zeros.
    intros r Hin. exact (no_price_no_pnl _ _ _ Hrows Hin).
Qed.

(** X9. Line 171 stands outside every [try]: when [float] refuses the
    [market_price] of the newest log, the pass ends there with that
    exception, whatever the positions and the older logs are. *)
Theorem bad_latest_price_ends_the_pass positions log rest v e :
  get log "market_price" = Some v ->
  v <> VNone ->
  py_float v = Raise e ->
  Script.render_top positions (log :: rest) = Raise e.
Proof.
  intros Hg Hv He. unfold Script.render_top, Script.latest_price, get_default.
  rewrite Hg.
  destruct v; try (contradiction Hv; reflexivity); rewrite He; reflexivity.
Qed.

(** X10. The "Open Positions" metric counts the rows of the positions table:
    whenever the table can be built, the two agree. *)
Theorem open_positions_counts_rows lp positions rows :
  normalize_positions lp positions = Ok rows ->
  Page.open_positions positions = Ok (Z.of_nat (List.length rows)).
Proof.
  unfold normalize_positions, Page.open_positions.
  destruct (truthy positions); cbn [negb].
  - destruct positions as [| | | | | |items]; try discriminate.
    intros H. cbn [Page.py_len].
    rewrite <- (length_map Symbol rows), (normalize_items_symbols _ _ _ H), length_map.
    reflexivity.
  - intros [= <-]. reflexivity.
Qed.

End MetricFacts.

(** *** The address shown in the sidebar *)

Lemma take_chars_len n s : Page.str_len (Page.take_chars n s) <= n.
Proof.
  revert n. induction s as [|c s IH]; intros n;
    cbn [Page.take_chars Page.str_len]; [lia|].
  destruct (Page.starts_char c) eqn:E.
  - destruct n as [|n]; cbn [Page.str_len]; [lia|]. rewrite E. specialize (IH n). lia.
  - cbn [Page.str_len]. rewrite E. apply IH.
Qed.

Lemma take_chars_all n s : Page.str_len s <= n -> Page.take_chars n s = s.
Proof.
  revert n. induction s as [|c s IH]; intros n;
    cbn [Page.take_chars Page.str_len]; [reflexivity|].
  destruct (Page.starts_char c).
  - destruct n as [|n]; [lia|]. intros H. rewrite IH by lia. reflexivity.
  - intros H. rewrite IH by lia. reflexivity.
Qed.

Lemma str_len_app a b : Page.str_len (a ++ b) = Page.str_len a + Page.str_len b.
Proof.
  induction a as [|c a IH]; cbn [append Page.str_len]; [reflexivity|].
  rewrite IH. lia.
Qed.

Lemma append_empty (s : string) : (s ++ EmptyString)%string = s.
Proof. induction s as [|c s IH]; cbn; [reflexivity | rewrite IH; reflexivity]. Qed.

(** X11. The sidebar never shows more than 60 characters of the address: an
    address that short is shown whole, a longer one as its first 60
    characters and one ellipsis. *)
Theorem url_preview_is_short (url : string) :
  Page.str_len (Page.url_preview url) <= 61 /\
  (Page.str_len url <= 60 -> Page.url_preview url = url) /\
  (60 < Page.str_len url ->
   Page.url_preview url = (Page.take_chars 60 url ++ Page.ELLIPSIS)%string /\
   Page.str_len (Page.take_chars 60 url) <= 60).
Proof.
  unfold Page.url_preview. cbv zeta. split; [|split].
  - rewrite str_len_app. pose proof (take_chars_len 60 url).
    destruct (60 <? Page.str_len url); cbn [Page.str_len]; [|lia].
    change (Page.str_len Page.ELLIPSIS) with 1. lia.
  - intros H. destruct (Nat.ltb_spec 60 (Page.str_len url)); [lia|].
    rewrite take_chars_all by lia. apply append_empty.
  - intros H. destruct (Nat.ltb_spec 60 (Page.str_len url)); [|lia].
    split; [reflexivity | apply take_chars_len].
Qed.

(** ** The fetchers and the loading block *)

Section FetchFacts.
Variable store : Type.
Variable execute : Fetch.query -> store -> result (option (list dict)) * store.

Lemma data_or_empty_rows data : Fetch.data_or_empty data = rows_of data.
Proof. destruct data as [[|r rs]|]; reflexivity. Qed.

(** X12. A list fetch whose preferred query answers sends nothing else and
    returns the answer's rows; a null or an empty answer is an empty list,
    and no reason to fall back. *)
Theorem answered_fetch_does_not_fall_back limit w data s1 :
  (execute (preferred "bot_logs" limit) (Fetch.db w) = (Ok data, s1) ->
   Fetch.fetch_bot_logs execute limit w =
   (Ok (rows_of data),
    {| Fetch.db := s1;
       Fetch.sent := Fetch.sent w ++ [preferred "bot_logs" limit] |})) /\
  (execute (preferred "trade_history" limit) (Fetch.db w) = (Ok data, s1) ->
   Fetch.fetch_trade_history execute limit w =
   (Ok (rows_of data),
    {| Fetch.db := s1;
       Fetch.sent := Fetch.sent w ++ [preferred "trade_history" limit] |})).
Proof.
  unfold preferred.
  split; intros H;
    unfold Fetch.fetch_bot_logs, Fetch.fetch_trade_history, Fetch.run;
    rewrite H, data_or_empty_rows; reflexivity.
Qed.

Lemma fetch_bot_logs_sent limit w :
  exists qs,
    Fetch.sent (snd (Fetch.fetch_bot_logs execute limit w)) = Fetch.sent w ++ qs /\
    one_or_two "bot_logs" limit qs.
Proof.
  unfold Fetch.fetch_bot_logs, Fetch.run, one_or_two, preferred, legacy.
  destruct (execute (Fetch.Ordered "bot_logs" "created_at" true limit) (Fetch.db w))
    as [[data|e] s1]; cbn [Fetch.db Fetch.sent snd].
  - eexists. split; [reflexivity | left; reflexivity].
  - destruct (execute (Fetch.Ordered "bot_logs" "timestamp" true limit) s1)
      as [[data|e2] s2]; cbn [snd Fetch.sent];
      rewrite <- app_assoc; eexists; (split; [reflexivity | right; reflexivity]).
Qed.

Lemma fetch_trade_history_sent limit w :
  exists qs,
    Fetch.sent (snd (Fetch.fetch_trade_history execute limit w)) = Fetch.sent w ++ qs /\
    one_or_two "trade_history" limit qs.
Proof.
  unfold Fetch.fetch_trade_history, Fetch.run, one_or_two, preferred, legacy.
  destruct (execute (Fetch.Ordered "trade_history" "created_at" true limit) (Fetch.db w))
    as [[data|e] s1]; cbn [Fetch.db Fetch.sent snd].
  - eexists. split; [reflexivity | left; reflexivity].
  - destruct (execute (Fetch.Ordered "trade_history" "timestamp" true limit) s1)
      as [[data|e2] s2]; cbn [snd Fetch.sent];
      rewrite <- app_assoc; eexists; (split; [reflexivity | right; reflexivity]).
Qed.

(** X13. Whatever the store does, a list fetch sends one query or two, to its
    own table, newest first and with the limit it was given: the preferred
    ordering, then at most the legacy one. What was sent before stays. *)
Theorem list_fetch_sends_one_or_two limit w :
  (exists qs,
     Fetch.sent (snd (Fetch.fetch_bot_logs execute limit w)) = Fetch.sent w ++ qs /\
     one_or_two "bot_logs" limit qs) /\
  (exists qs,
     Fetch.sent (snd (Fetch.fetch_trade_history execute limit w)) = Fetch.sent w ++ qs /\
     one_or_two "trade_history" limit qs).
Proof. split; [apply fetch_bot_logs_sent | apply fetch_trade_history_sent]. Qed.

Context {B : Builtins}.

Lemma portfolio_fetch_sent w :
  Fetch.sent (snd (Fetch.fetch_portfolio_state execute w)) =
  Fetch.sent w ++ [portfolio_query].
Proof.
  unfold Fetch.fetch_portfolio_state, Fetch.run, portfolio_query.
  destruct (execute (Fetch.ById "portfolio_state" 1) (Fetch.db w))
    as [[[[|r rs]|]|e] s1]; reflexivity.
Qed.

(** X14. A pass that loads has asked for the portfolio row first, then for the
    logs, then for the history, each list with the limit 200 and with one
    query or two: three to five queries in all. *)
Theorem load_order_of_queries w d w' :
  Load.load_data execute w = (inr d, w') ->
  exists ql qh,
    Fetch.sent w' = Fetch.sent w ++ portfolio_query :: ql ++ qh /\
    one_or_two "bot_logs" 200 ql /\
    one_or_two "trade_history" 200 qh.
Proof.
  unfold Load.load_data. pose proof (portfolio_fetch_sent w) as Hw1.
  destruct (Fetch.fetch_portfolio_state execute w) as [[[[|field fields]|]|e] w1];
    try discriminate.
  cbn [snd] in Hw1.
  destruct (py_float _) as [bal|]; [|discriminate].
  destruct (fetch_bot_logs_sent 200 w1) as (ql & Hql & Hl).
  destruct (Fetch.fetch_bot_logs execute 200 w1) as [[lg|] w2]; [|discriminate].
  destruct (fetch_trade_history_sent 200 w2) as (qh & Hqh & Hh).
  destruct (Fetch.fetch_trade_history execute 200 w2) as [[hs|] w3]; [|discriminate].
  intros [= _ <-]. cbn [snd] in Hql, Hqh.
  exists ql, qh. split; [|split; assumption].
  rewrite Hqh, Hql, Hw1, <- !app_assoc. reflexivity.
Qed.

(** X15. When the portfolio row cannot be had (the query raises, answers
    nothing, or answers an empty row) the pass stops after that one query:
    neither list is fetched. An exception is shown as a connection error,
    the rest as the missing row. *)
Theorem no_portfolio_no_list_fetch w r s1 :
  execute portfolio_query (Fetch.db w) = (r, s1) ->
  has_row r = false ->
  exists h,
    Load.load_data execute w =
    (inl h, {| Fetch.db := s1; Fetch.sent := Fetch.sent w ++ [portfolio_query] |}) /\
    (forall e, r = Raise e -> h = Load.ConnectionError e) /\
    (forall data, r = Ok data -> h = Load.RowNotFound).
Proof.
  unfold portfolio_query. intros H Hr.
  unfold Load.load_data, Fetch.fetch_portfolio_state, Fetch.run. rewrite H.
  destruct r as [[[|[|f fs] rs]|]|e]; try discriminate Hr;
    eexists; (split; [reflexivity|]); split; intros ? [= <-]; reflexivity.
Qed.

(** X16. A balance that [float] refuses stops the pass as a "connection error"
    carrying [float]'s exception, before any list is fetched. *)
Theorem bad_balance_is_a_connection_error w field fields rows s1 e :
  execute portfolio_query (Fetch.db w) = (Ok (Some ((field :: fields) :: rows)), s1) ->
  py_float (py_or (get_default (field :: fields) "balance_usdt" (VInt 0)) (VInt 0)) =
  Raise e ->
  Load.load_data execute w =
  (inl (Load.ConnectionError e),
   {| Fetch.db := s1; Fetch.sent := Fetch.sent w ++ [portfolio_query] |}).
Proof.
  unfold portfolio_query. intros H Hb.
  unfold Load.load_data, Fetch.fetch_portfolio_state, Fetch.run. rewrite H, Hb.
  reflexivity.
Qed.

(** X17. A portfolio row without positions (the field missing, null or empty)
    loads as the empty mapping: the positions table has no row and the
    "Open Positions" metric reads 0. *)
Theorem no_positions_empty_table w d w' lp :
  Load.load_data execute w = (inr d, w') ->
  truthy (get_default (Load.portfolio d) "positions" VNone) = false ->
  Load.positions d = VDict [] /\
  normalize_positions lp (Load.positions d) = Ok [] /\
  Page.open_positions (Load.positions d) = Ok 0%Z.
Proof.
  unfold Load.load_data.
  destruct (Fetch.fetch_portfolio_state execute w) as [[[[|field fields]|]|e] w1];
    try discriminate.
  destruct (py_float _) as [bal|]; [|discriminate].
  destruct (Fetch.fetch_bot_logs execute 200 w1) as [[lg|] w2]; [|discriminate].
  destruct (Fetch.fetch_trade_history execute 200 w2) as [[hs|] w3]; [|discriminate].
  intros [= <- _]. cbn [Load.portfolio Load.positions].
  intros Hfalsy. unfold py_or. rewrite Hfalsy. repeat split.
Qed.

End FetchFacts.

(** ** The chart and its markers *)

Lemma earlier_trans a b c : earlier a b -> earlier b c -> earlier a c.
Proof. unfold earlier. lia. Qed.

Lemma filter_strongly_sorted {A : Type} (R : A -> A -> Prop) (f : A -> bool) l :
  StronglySorted R l -> StronglySorted R (filter f l).
Proof.
  induction 1 as [|a l Hs IH Hall]; cbn [filter]; [constructor|].
  destruct (f a); [|exact IH].
  constructor; [exact IH|].
  rewrite Forall_forall in *. intros x Hx. apply filter_In in Hx. apply Hall, Hx.
Qed.

Lemma filter_none {A : Type} (f : A -> bool) l :
  (forall x, In x l -> f x = false) -> filter f l = [].
Proof.
  induction l as [|a l IH]; intros H; cbn [filter]; [reflexivity|].
  rewrite (H a (or_introl eq_refl)). apply IH. intros x Hx. apply H. right. exact Hx.
Qed.

(** What the table maps is in the table. *)
Lemma lookup_known u v :
  lookup ACTION_INTENT_MAP u = Some v ->
  In (u, v) ACTION_INTENT_MAP.
Proof.
  unfold ACTION_INTENT_MAP. cbn [lookup].
  repeat match goal with
  | |- context [String.eqb ?k u] =>
      destruct (String.eqb_spec k u) as [<- | _];
      [intros [= <-]; cbn; tauto|]
  end.
  discriminate.
Qed.

Ltac table_cases :=
  repeat match goal with
  | H : _ \/ _ |- _ => destruct H
  | H : (_, _) = (_, _) |- _ => injection H as ? ?; subst
  | H : False |- _ => destruct H
  end.

(** A name of the table other than ["flat"] is reached from its key alone,
    in whatever case the text is written. *)
Lemma map_intent_known s name key :
  In (key, name) ACTION_INTENT_MAP ->
  name <> "flat"%string ->
  (map_intent s = name <-> upper s = key).
Proof.
  unfold map_intent. intros Hin Hflat.
  destruct (lookup ACTION_INTENT_MAP (upper s)) as [v|] eqn:Hl.
  - apply lookup_known in Hl.
    unfold ACTION_INTENT_MAP in Hin, Hl. cbn [In] in Hin, Hl.
    table_cases; split; intros; congruence.
  - split.
    + intros ->. exfalso.
      unfold ACTION_INTENT_MAP in Hin. cbn [In] in Hin.
      table_cases; try discriminate Hl. apply Hflat. reflexivity.
    + intros Hu. rewrite Hu in Hl. exfalso.
      unfold ACTION_INTENT_MAP in Hin. cbn [In] in Hin.
      table_cases; discriminate Hl.
Qed.

(** ["flat"] is reached from CLOSE, and from the text ["flat"] itself. *)
Lemma map_intent_flat s :
  map_intent s = "flat"%string <-> upper s = "CLOSE"%string \/ s = "flat"%string.
Proof.
  unfold map_intent.
  destruct (lookup ACTION_INTENT_MAP (upper s)) as [v|] eqn:Hl.
  - assert (Hs : s <> "flat"%string) by (intros ->; discriminate Hl).
    apply lookup_known in Hl. unfold ACTION_INTENT_MAP in Hl. cbn [In] in Hl.
    table_cases; split; intros; try discriminate; try (left; congruence);
    match goal with
    | H : _ \/ _ |- _ => destruct H; congruence
    end.
  - split; [intros ->; right; reflexivity|].
    intros [Hu | ->]; [|reflexivity].
    rewrite Hu in Hl. discriminate Hl.
Qed.

Section ChartFacts.
Context {B : Builtins}.

Lemma dropna_sources logs all :
  map source (dropna logs all) = filter (parses all) logs.
Proof.
  unfold parses. induction logs as [|log logs IH]; cbn [dropna filter]; [reflexivity|].
  destruct (safe_to_datetime (created_at_cell all log)); cbn [map]; rewrite IH;
    reflexivity.
Qed.

(** X18. The chart holds exactly the records whose time parses, each as often
    as the logs have it: nothing else is dropped, nothing is added. *)
Theorem chart_keeps_the_parsable logs :
  Permutation (map source (df_chart logs)) (filter (parses logs) logs).
Proof.
  unfold df_chart. rewrite <- dropna_sources.
  apply Permutation_map, sort_values_perm.
Qed.

(** X19. The chart is in ascending order of time, whatever order the store gave,
    and so is every marker group. *)
Theorem chart_and_markers_ascend logs :
  StronglySorted earlier (df_chart logs) /\
  forall g, In g (marker_groups logs) -> StronglySorted earlier g.
Proof.
  assert (H : StronglySorted earlier (df_chart logs)).
  { apply Sorted_StronglySorted; [exact earlier_trans | apply sort_values_sorted]. }
  split; [exact H|].
  unfold marker_groups, buys, shorts, adds, reduces, exits. cbn [In].
  intros g [<- | [<- | [<- | [<- | [<- | []]]]]]; apply filter_strongly_sorted, H.
Qed.

Lemma marker_group_names logs i g row :
  nth_error (marker_groups logs) i = Some g ->
  In row g ->
  exists names, nth_error MARKED i = Some names /\ In (intent_norm row) names.
Proof.
  unfold marker_groups, buys, shorts, adds, reduces, exits, intent_is, MARKED.
  intros H Hin.
  destruct i as [|[|[|[|[|i]]]]]; cbn [nth_error] in H |- *;
    try (destruct i; discriminate H);
    injection H as <-; apply filter_In in Hin; destruct Hin as [_ Hn];
    eexists; (split; [reflexivity|]);
    rewrite ?orb_true_iff, ?String.eqb_eq in Hn; cbn [In]; intuition.
Qed.

(** X20. No row is marked twice: the five groups are disjoint. *)
Theorem markers_are_disjoint logs i j g1 g2 row :
  nth_error (marker_groups logs) i = Some g1 ->
  nth_error (marker_groups logs) j = Some g2 ->
  i <> j ->
  In row g1 -> ~ In row g2.
Proof.
  intros H1 H2 Hij Hin1 Hin2.
  destruct (marker_group_names _ _ _ _ H1 Hin1) as (n1 & Hn1 & Hm1).
  destruct (marker_group_names _ _ _ _ H2 Hin2) as (n2 & Hn2 & Hm2).
  clear H1 H2 Hin1 Hin2. unfold MARKED in Hn1, Hn2.
  destruct i as [|[|[|[|[|i]]]]]; cbn [nth_error] in Hn1;
    try (destruct i; discriminate Hn1); injection Hn1 as <-;
  destruct j as [|[|[|[|[|j]]]]]; cbn [nth_error] in Hn2;
    try (destruct j; discriminate Hn2); injection Hn2 as <-;
  try (apply Hij; reflexivity);
  cbn [In] in Hm1, Hm2; table_cases; congruence.
Qed.

(** X21. For a row of the chart, the group is decided by the intent text
    without regard to case: ENTER_LONG, ENTER_SHORT, ADD and REDUCE each
    have their group, CLOSE and REVERSE share one with a literal ["flat"],
    and HOLD has none (texts of ASCII characters, where the model's case
    mapping is Python's). *)
Theorem marker_of_a_known_intent logs row s :
  In row (df_chart logs) ->
  intent_text logs (source row) = Some s ->
  is_ascii s = true ->
  (In row (buys logs) <-> upper s = "ENTER_LONG"%string) /\
  (In row (shorts logs) <-> upper s = "ENTER_SHORT"%string) /\
  (In row (adds logs) <-> upper s = "ADD"%string) /\
  (In row (reduces logs) <-> upper s = "REDUCE"%string) /\
  (In row (exits logs) <->
   upper s = "CLOSE"%string \/ upper s = "REVERSE"%string \/ s = "flat"%string) /\
  (upper s = "HOLD"%string ->
   forall g, In g (marker_groups logs) -> ~ In row g).
Proof.
  intros Hin Htext _.
  destruct (df_chart_In _ _ Hin) as (_ & _ & Hnorm).
  assert (Hs : intent_norm row = map_intent s).
  { rewrite Hnorm. unfold intent_norm_cell. unfold intent_text in Htext.
    destruct (has_column logs "intent"); [injection Htext as <-; reflexivity|].
    destruct (has_column logs "action"); [injection Htext as <-; reflexivity|].
    discriminate. }
  assert (Hk : forall name key, In (key, name) ACTION_INTENT_MAP ->
                 name <> "flat"%string ->
                 (In row (filter (intent_is name) (df_chart logs)) <-> upper s = key)).
  { intros name key Hmap Hflat. rewrite filter_In. unfold intent_is.
    rewrite String.eqb_eq, Hs, (map_intent_known s name key Hmap Hflat). tauto. }
  unfold buys, shorts, adds, reduces.
  split; [apply Hk; [cbn; tauto | discriminate]|].
  split; [apply Hk; [cbn; tauto | discriminate]|].
  split; [apply Hk; [cbn; tauto | discriminate]|].
  split; [apply Hk; [cbn; tauto | discriminate]|].
  assert (Hexit : In row (exits logs) <->
            upper s = "CLOSE"%string \/ upper s = "REVERSE"%string \/ s = "flat"%string).
  { unfold exits. rewrite filter_In, orb_true_iff. unfold intent_is.
    rewrite !String.eqb_eq, Hs, map_intent_flat.
    rewrite (map_intent_known s "reverse" "REVERSE");
      [tauto | cbn; tauto | discriminate]. }
  split; [exact Hexit|].
  intros Hhold g Hg Hrow.
  pose proof (marker_group_intent _ _ _ Hg Hrow) as Hname.
  rewrite Hs in Hname.
  assert (Hm : map_intent s = "hold"%string).
  { apply (map_intent_known s "hold" "HOLD"); [cbn; tauto | discriminate | exact Hhold]. }
  rewrite Hm in Hname. cbn [In] in Hname.
  table_cases; discriminate.
Qed.

(** X22. Logs with neither an [intent] nor an [action] anywhere are all read as
    ["hold"]: the chart has its rows and not a single marker. *)
Theorem no_intent_no_marker logs :
  has_column logs "intent" = false ->
  has_column logs "action" = false ->
  (forall row, In row (df_chart logs) -> intent_norm row = "hold"%string) /\
  marker_groups logs = [[]; []; []; []; []].
Proof.
  intros Hi Ha.
  assert (Hhold : forall row, In row (df_chart logs) -> intent_norm row = "hold"%string).
  { intros row Hin. destruct (df_chart_In _ _ Hin) as (_ & _ & ->).
    unfold intent_norm_cell. rewrite Hi, Ha. reflexivity. }
  split; [exact Hhold|].
  unfold marker_groups, buys, shorts, adds, reduces, exits, intent_is.
  rewrite !filter_none; [reflexivity | ..];
    intros row Hin; rewrite (Hhold row Hin); reflexivity.
Qed.

End ChartFacts.

(** ** The recent-activity table *)

Lemma ascii_char_bytes c : (nat_of_ascii c <? 128) = true -> Page.char_bytes c = 1.
Proof.
  unfold Page.char_bytes. cbv zeta. intros H. apply Nat.ltb_lt in H.
  destruct (Nat.ltb_spec (nat_of_ascii c) 192); [reflexivity | lia].
Qed.

(** On ASCII text characters are bytes: dropping and taking as many
    characters as a prefix has removes and returns that prefix, whatever
    comes after it. *)
Lemma drop_ascii_prefix a b :
  is_ascii a = true ->
  Page.drop_chars_from (String.length a) 0 (a ++ b) = b.
Proof.
  induction a as [|c a IH]; cbn [is_ascii String.length append Page.drop_chars_from].
  - intros _. destruct b; reflexivity.
  - intros H. apply andb_prop in H. destruct H as [Hc Ha].
    rewrite (ascii_char_bytes c Hc). exact (IH Ha).
Qed.

Lemma take_ascii_prefix a b :
  is_ascii a = true ->
  Page.take_chars_from (String.length a) 0 (a ++ b) = a.
Proof.
  induction a as [|c a IH]; cbn [is_ascii String.length append Page.take_chars_from].
  - intros _. destruct b; reflexivity.
  - intros H. apply andb_prop in H. destruct H as [Hc Ha].
    rewrite (ascii_char_bytes c Hc). cbn [Nat.sub]. rewrite (IH Ha). reflexivity.
Qed.

Lemma is_ascii_app a b : is_ascii (a ++ b) = is_ascii a && is_ascii b.
Proof.
  induction a as [|c a IH]; cbn [append is_ascii]; [reflexivity|].
  rewrite IH, andb_assoc. reflexivity.
Qed.

Lemma append_assoc_str (a b c : string) : ((a ++ b) ++ c = a ++ (b ++ c))%string.
Proof. induction a as [|x a IH]; cbn; [reflexivity | rewrite IH; reflexivity]. Qed.

Lemma append_length (a b : string) :
  String.length (a ++ b) = String.length a + String.length b.
Proof. induction a as [|x a IH]; cbn; [reflexivity | rewrite IH; reflexivity]. Qed.

Section RecentFacts.
Context {B : Builtins}.

(** X23. The block builds the recent-activity table only when some record
    has a [market_price] (else [px.line] has raised before); the table then
    has a row for each of the first 25 records and no other, 25 rows at
    most and fewer only when there are fewer records, each row made from
    the record at its position; and a thesis is cut to 160 characters. *)
Theorem recent_is_bounded logs v :
  chart_block logs = Ok (Some v) ->
  has_column logs "market_price" = true /\
  List.length (table v) = Nat.min 25 (List.length logs) /\
  (forall i, i < List.length (table v) ->
             exists log, nth_error logs i = Some log /\
                         nth_error (table v) i = Some (recent_of log)) /\
  (forall r, In r (table v) -> Page.str_len (Thesis r) <= 160).
Proof.
  unfold chart_block. destruct logs as [|l logs]; [discriminate|].
  destruct (has_column (l :: logs) "market_price"); [|discriminate].
  intros [= <-]. cbn [table]. unfold recent.
  split; [reflexivity|]. split.
  - rewrite length_map, length_firstn. reflexivity.
  - split.
    + intros i Hi. rewrite length_map, length_firstn in Hi.
      destruct (nth_error (l :: logs) i) as [log|] eqn:Hlog.
      * exists log. split; [reflexivity|].
        apply map_nth_error. rewrite nth_error_firstn.
        destruct (Nat.ltb_spec i 25); [exact Hlog | lia].
      * apply nth_error_None in Hlog. lia.
    + intros r Hin. apply in_map_iff in Hin. destruct Hin as (log & <- & _).
      cbn [recent_of Thesis]. apply take_chars_len.
Qed.

(** X24. The time shown for an ISO timestamp is its clock part: of
    [YYYY-MM-DDTHH:MM:SS...] the table shows [HH:MM:SS]. The timestamp is
    the record's [created_at], or its [timestamp] when [created_at] is
    missing or falsy. *)
Theorem recent_time_is_the_clock log date clock rest :
  let ts := (date ++ "T" ++ clock ++ rest)%string in
  get log "created_at" = Some (VStr ts) \/
  (truthy (get_default log "created_at" VNone) = false /\
   get log "timestamp" = Some (VStr ts)) ->
  String.length date = 10 ->
  String.length clock = 8 ->
  is_ascii (date ++ "T" ++ clock) = true ->
  Time (recent_of log) = clock.
Proof.
  intros ts Hts Hd Hc Hascii.
  assert (Hne : truthy (VStr ts) = true).
  { unfold ts. cbn [truthy]. destruct date; [discriminate Hd | reflexivity]. }
  assert (Hraw : py_or (py_or (get_default log "created_at" VNone)
                              (get_default log "timestamp" VNone))
                       (VStr EmptyString) = VStr ts).
  { unfold py_or at 2. unfold get_default in *.
    destruct Hts as [-> | [Hfalsy ->]].
    - rewrite Hne. unfold py_or. rewrite Hne. reflexivity.
    - rewrite Hfalsy. unfold py_or. rewrite Hne. reflexivity. }
  unfold recent_of. cbn [Time]. rewrite Hraw. cbn [py_str].
  assert (HT : str_in "T" ts = true).
  { apply str_in_spec. exists date, (clock ++ rest)%string. reflexivity. }
  rewrite HT. unfold ts, Page.slice. change (19 - 11) with 8.
  replace (date ++ "T" ++ clock)%string with ((date ++ "T") ++ clock)%string in Hascii
    by (rewrite append_assoc_str; reflexivity).
  rewrite is_ascii_app in Hascii. apply andb_prop in Hascii.
  destruct Hascii as [Hprefix Hclock].
  replace (date ++ "T" ++ clock ++ rest)%string
    with ((date ++ "T") ++ (clock ++ rest))%string
    by (rewrite append_assoc_str; reflexivity).
  replace 11 with (String.length (date ++ "T"))
    by (rewrite append_length, Hd; reflexivity).
  rewrite (drop_ascii_prefix _ _ Hprefix), <- Hc.
  exact (take_ascii_prefix _ _ Hclock).
Qed.

End RecentFacts.

(** ** The trade-history table *)

Import History.

Lemma get_setitem d k v k' :
  get (setitem d k v) k' = if String.eqb k k' then Some v else get d k'.
Proof.
  induction d as [|[k0 v0] d IH]; cbn [setitem get].
  - destruct (String.eqb k k'); reflexivity.
  - destruct (String.eqb_spec k0 k) as [-> | Hne]; cbn [get].
    + destruct (String.eqb k k'); reflexivity.
    + rewrite IH. destruct (String.eqb_spec k0 k') as [-> | Hne'].
      * destruct (String.eqb_spec k k') as [-> | _];
          [contradiction Hne; reflexivity | reflexivity].
      * reflexivity.
Qed.

Lemma py_or_chain a b c :
  py_or (py_or a b) c = if truthy a then a else if truthy b then b else c.
Proof.
  unfold py_or. destruct (truthy a) eqn:Ta; [rewrite Ta; reflexivity | reflexivity].
Qed.

(** Stamping a trade sets its [_ts] and leaves its other fields alone. *)
Lemma get_stamp t c :
  get (stamp t) c = if String.eqb "_ts" c then Some (raw_time t) else get t c.
Proof.
  unfold stamp. rewrite get_setitem, py_or_chain.
  destruct (String.eqb "_ts" c); [|reflexivity].
  f_equal. unfold raw_time, get_default.
  destruct (get t "created_at") as [v|], (get t "timestamp") as [v'|]; cbn [truthy];
    try destruct (truthy v); try destruct (truthy v'); reflexivity.
Qed.

Lemma comes_first_no_later a b : comes_first a b = true <-> no_later a b.
Proof.
  unfold comes_first, no_later.
  destruct (ts a), (ts b); rewrite ?Z.leb_le; intuition discriminate.
Qed.

Lemma no_later_total a b : ~ no_later a b -> no_later b a.
Proof. unfold no_later. destruct (ts a), (ts b); intros; try lia; try tauto. Qed.

Lemma no_later_trans a b c : no_later a b -> no_later b c -> no_later a c.
Proof.
  unfold no_later. destruct (ts a), (ts b), (ts c); intros; try lia; try tauto.
Qed.

Lemma insert_hist_perm r rows : Permutation (insert_hist r rows) (r :: rows).
Proof.
  induction rows as [|r' rows IH]; cbn; [reflexivity|].
  destruct (comes_first r r'); [reflexivity|].
  rewrite IH. apply perm_swap.
Qed.

Lemma sort_desc_perm rows : Permutation (sort_desc rows) rows.
Proof.
  induction rows as [|r rows IH]; cbn; [reflexivity|].
  rewrite insert_hist_perm, IH. reflexivity.
Qed.

Lemma insert_hist_sorted r rows :
  Sorted no_later rows -> Sorted no_later (insert_hist r rows).
Proof.
  induction rows as [|r' rows IH]; intros Hs; cbn [insert_hist].
  - repeat constructor.
  - destruct (comes_first r r') eqn:E.
    + constructor; [exact Hs|]. constructor. apply comes_first_no_later. exact E.
    + assert (Hr : no_later r' r).
      { apply no_later_total. rewrite <- comes_first_no_later, E. discriminate. }
      inversion Hs as [|? ? Hs' Hhd]; subst.
      constructor; [exact (IH Hs')|].
      destruct rows as [|r'' rows]; cbn [insert_hist].
      * constructor. exact Hr.
      * destruct (comes_first r r''); constructor; [exact Hr|].
        inversion Hhd; subst. assumption.
Qed.

Lemma sort_desc_sorted rows : Sorted no_later (sort_desc rows).
Proof.
  induction rows as [|r rows IH]; cbn; [constructor|].
  apply insert_hist_sorted, IH.
Qed.

Lemma SHOWN_nodup : NoDup SHOWN.
Proof.
  unfold SHOWN.
  repeat (constructor; [cbn [In]; intuition discriminate|]). constructor.
Qed.

Lemma filter_in_order {A : Type} (f : A -> bool) l : in_order (filter f l) l.
Proof.
  induction l as [|x l IH]; cbn [filter]; [constructor|].
  destruct (f x); constructor; exact IH.
Qed.

Section HistoryFacts.
Context {B : Builtins}.
Variable strftime : Z -> string.

(** X25. Unlike the chart, the history table drops nothing: it has every trade
    of the fetched list, once each, a trade whose time does not parse
    included. *)
Theorem history_keeps_every_trade history :
  Permutation (map trade (df_hist history)) (map stamp history) /\
  List.length (df_show strftime history) = List.length history.
Proof.
  split.
  - unfold df_hist. rewrite sort_desc_perm, map_map. cbn [trade].
    reflexivity.
  - unfold df_show, df_hist.
    rewrite length_map, (Permutation_length (sort_desc_perm _)), length_map.
    reflexivity.
Qed.

(** X26. The table is ordered newest first, and the trades without a usable
    time come after all the others. *)
Theorem history_is_newest_first history :
  StronglySorted no_later (df_hist history).
Proof.
  apply Sorted_StronglySorted; [exact no_later_trans | apply sort_desc_sorted].
Qed.

Lemma has_column_stamp history c :
  Timeline.has_column (map stamp history) c = true <->
  exists t, In t history /\ (c = "_ts"%string \/ contains_key t c = true).
Proof.
  unfold Timeline.has_column. rewrite existsb_exists. split.
  - intros (t' & Hin & Hk). apply in_map_iff in Hin. destruct Hin as (t & <- & Hin).
    exists t. split; [exact Hin|].
    unfold contains_key in *. rewrite get_stamp in Hk.
    destruct (String.eqb_spec "_ts" c) as [<- | _];
      [left; reflexivity | right; exact Hk].
  - intros (t & Hin & Hc). exists (stamp t). split; [apply in_map; exact Hin|].
    unfold contains_key in *. rewrite get_stamp.
    destruct (String.eqb_spec "_ts" c) as [_ | Hne]; [reflexivity|].
    destruct Hc as [-> | Hc]; [contradiction Hne; reflexivity | exact Hc].
Qed.

(** X27. The columns shown are those of the script's list that some trade
    has, in the list's order and once each; [_ts] is always among them, and
    first; a column outside the list is never shown. *)
Theorem shown_columns history :
  in_order (show_cols history) SHOWN /\
  (forall c, In c (show_cols history) <->
             In c SHOWN /\
             exists t, In t history /\
                       (c = "_ts"%string \/ contains_key t c = true)) /\
  NoDup (show_cols history) /\
  (history <> [] -> exists rest, show_cols history = "_ts"%string :: rest).
Proof.
  split; [|split; [|split]].
  - unfold show_cols. apply filter_in_order.
  - intros c. unfold show_cols. rewrite filter_In, has_column_stamp. reflexivity.
  - unfold show_cols. apply NoDup_filter, SHOWN_nodup.
  - intros Hne. unfold show_cols, SHOWN. cbn [filter].
    assert (H : Timeline.has_column (map stamp history) "_ts" = true).
    { apply has_column_stamp.
      destruct history as [|t history]; [contradiction Hne; reflexivity|].
      exists t. split; [left; reflexivity | left; reflexivity]. }
    rewrite H. eexists. reflexivity.
Qed.



End HistoryFacts.

(** * The further properties on sample records *)

Import Cases.

Lemma first_failing_entry_raises_witness :
  let before := [(current_key, VDict current_long)] in
  let rows := [ {| Symbol := current_key; Type_ := LONG; Collateral := 100;
                   Leverage := 10; Notional := 1000; Entry := 100;
                   PnL := 100; ROI := 100 |} ] in
  normalize_items (Some 110%float) before = Ok rows /\
  normalize_entry (Some 110%float) "ETH/USDT:USDT" (VStr "closed") = Raise AttributeError /\
  normalize_positions (Some 110%float) (VDict broken_positions) = Raise AttributeError.
Proof.
  intros before rows.
  assert (Hb : normalize_items (Some 110%float) before = Ok rows) by reflexivity.
  assert (He : normalize_entry (Some 110%float) "ETH/USDT:USDT" (VStr "closed") =
               Raise AttributeError) by reflexivity.
  split; [exact Hb|]. split; [exact He|].
  exact (first_failing_entry_raises _ before _ _
           [(legacy_key, VDict legacy_zero_leverage)] rows _ Hb He).
Defined.

Lemma normalize_positions_raises_only_witness :
  normalize_positions (Some 110%float) (VDict worded_positions) = Raise ValueError /\
  ValueError <> ZeroDivisionError /\
  (ValueError = AttributeError \/ ValueError = TypeError \/
   ValueError = ValueError \/ ValueError = OverflowError).
Proof.
  assert (H : normalize_positions (Some 110%float) (VDict worded_positions) =
              Raise ValueError) by reflexivity.
  split; [exact H|].
  exact (normalize_positions_raises_only _ _ _ H).
Defined.

Lemma rows_follow_the_mapping_witness :
  exists rows,
    normalize_positions (Some 110%float) (VDict two_positions) = Ok rows /\
    map Symbol rows = [current_key; sell_key].
Proof.
  eexists. split; [reflexivity|].
  apply (rows_follow_the_mapping (Some 110%float) two_positions). reflexivity.
Defined.

Lemma row_invariants_witness :
  let r := {| Symbol := sell_key; Type_ := SHORT; Collateral := 500;
              Leverage := 1; Notional := 500; Entry := 50;
              PnL := -600; ROI := -120 |} in
  exists rows,
    normalize_positions (Some 110%float) (VDict two_positions) = Ok rows /\
    In r rows /\
    Collateral r = collateral_formula (Notional r) (Leverage r) /\
    ROI r = roi_formula (PnL r) (Collateral r) /\
    (Type_ r = LONG \/ Type_ r = SHORT).
Proof.
  intros r. eexists.
  split; [reflexivity|]. split; [right; left; reflexivity|].
  eapply (row_invariants (Some 110%float) (VDict two_positions));
    [reflexivity | right; left; reflexivity].
Defined.

Lemma no_leverage_full_collateral_witness :
  let r := {| Symbol := sell_key; Type_ := SHORT; Collateral := 500;
              Leverage := 1; Notional := 500; Entry := 50;
              PnL := -600; ROI := -120 |} in
  normalize_entry (Some 110%float) sell_key (VDict legacy_no_leverage) = Ok r /\
  truthy (get_default legacy_no_leverage "leverage" VNone) = false /\
  Leverage r = 1%float /\ Collateral r = Notional r.
Proof.
  intros r.
  assert (H : normalize_entry (Some 110%float) sell_key (VDict legacy_no_leverage) = Ok r)
    by reflexivity.
  split; [exact H|]. split; [reflexivity|].
  exact (no_leverage_full_collateral _ _ _ _ H eq_refl).
Defined.

Lemma key_case_is_ignored_witness :
  let r := {| Symbol := lower_key; Type_ := LONG; Collateral := 1000;
              Leverage := 1; Notional := 1000; Entry := 100;
              PnL := 100; ROI := 10 |} in
  is_ascii lower_key = true /\
  normalize_entry (Some 110%float) lower_key (VDict legacy_zero_leverage) = Ok r /\
  upper lower_key = "BTC/USDT:USDT_BUY"%string /\
  normalize_entry (Some 110%float) "BTC/USDT:USDT_BUY" (VDict legacy_zero_leverage) =
  Ok {| Symbol := "BTC/USDT:USDT_BUY"; Type_ := LONG; Collateral := 1000;
        Leverage := 1; Notional := 1000; Entry := 100;
        PnL := 100; ROI := 10 |}.
Proof.
  intros r.
  assert (H : normalize_entry (Some 110%float) lower_key (VDict legacy_zero_leverage) = Ok r)
    by reflexivity.
  split; [reflexivity|]. split; [exact H|]. split; [reflexivity|].
  exact (key_case_is_ignored (Some 110%float) lower_key legacy_zero_leverage r eq_refl H).
Defined.

Lemma unrealized_is_the_sum_witness :
  exists t,
    Script.render_top (VDict two_positions) sample_logs = Ok t /\
    Script.unrealized t = (-500)%float /\
    Script.unrealized t =
    fold_left (fun acc r => (acc + PnL r)%float) (Script.pos_rows t) 0%float.
Proof.
  eexists. split; [reflexivity|]. split; [reflexivity|].
  apply (unrealized_is_the_sum (VDict two_positions) sample_logs). reflexivity.
Defined.

Lemma bad_latest_price_ends_the_pass_witness :
  get log_no_price "market_price" = Some (VStr "n/a") /\
  py_float (VStr "n/a") = Raise ValueError /\
  Script.render_top (VDict two_positions) (log_no_price :: sample_logs) = Raise ValueError.
Proof.
  split; [reflexivity|]. split; [reflexivity|].
  apply (bad_latest_price_ends_the_pass _ _ _ (VStr "n/a"));
    [reflexivity | discriminate | reflexivity].
Defined.

Lemma open_positions_counts_rows_witness :
  exists r1 r2,
    normalize_positions (Some 110%float) (VDict two_positions) = Ok [r1; r2] /\
    Page.open_positions (VDict two_positions) = Ok 2%Z.
Proof.
  eexists. eexists.
  assert (H : normalize_positions (Some 110%float) (VDict two_positions) = Ok [_; _])
    by reflexivity.
  split; [exact H|].
  exact (open_positions_counts_rows _ _ _ H).
Defined.

Lemma url_preview_is_short_witness :
  60 < Page.str_len long_url /\
  Page.url_preview long_url =
  ("https://abcdefghijklmnopqrst.supabase.co/rest/v1/an-address-" ++ Page.ELLIPSIS)%string /\
  Page.str_len (Page.url_preview long_url) <= 61.
Proof.
  assert (H : 60 < Page.str_len long_url) by (vm_compute; lia).
  split; [exact H|].
  destruct (url_preview_is_short long_url) as (Hshort & _ & Hlong).
  split; [exact (proj1 (Hlong H)) | exact Hshort].
Defined.

Lemma answered_fetch_does_not_fall_back_witness :
  Fetch.fetch_bot_logs demo_execute 200 {| Fetch.db := Healthy; Fetch.sent := [] |} =
  (Ok sample_logs,
   {| Fetch.db := Healthy; Fetch.sent := [preferred "bot_logs" 200] |}).
Proof.
  destruct (answered_fetch_does_not_fall_back demo_store demo_execute 200%Z
              {| Fetch.db := Healthy; Fetch.sent := [] |} (Some sample_logs) Healthy)
    as [Hlogs _].
  exact (Hlogs eq_refl).
Defined.

Lemma load_order_of_queries_witness :
  exists d,
    Load.load_data demo_execute {| Fetch.db := Healthy; Fetch.sent := [] |} =
    (inr d,
     {| Fetch.db := Healthy;
        Fetch.sent := [ portfolio_query;
                        preferred "bot_logs" 200;
                        preferred "trade_history" 200;
                        legacy "trade_history" 200 ] |}) /\
    exists ql qh,
      [ portfolio_query; preferred "bot_logs" 200;
        preferred "trade_history" 200; legacy "trade_history" 200 ] =
      [] ++ portfolio_query :: ql ++ qh /\
      one_or_two "bot_logs" 200 ql /\
      one_or_two "trade_history" 200 qh.
Proof.
  eexists.
  assert (H : Load.load_data (B:=sample) demo_execute
                {| Fetch.db := Healthy; Fetch.sent := [] |} =
              (inr _,
               {| Fetch.db := Healthy;
                  Fetch.sent := [ portfolio_query;
                                  preferred "bot_logs" 200;
                                  preferred "trade_history" 200;
                                  legacy "trade_history" 200 ] |})) by reflexivity.
  split; [exact H|].
  exact (load_order_of_queries demo_store demo_execute _ _ _ H).
Defined.

Lemma no_portfolio_no_list_fetch_witness :
  Load.load_data sample_execute {| Fetch.db := OlderSchema; Fetch.sent := [] |} =
  (inl Load.RowNotFound,
   {| Fetch.db := OlderSchema; Fetch.sent := [portfolio_query] |}) /\
  Load.load_data sample_execute {| Fetch.db := Unreachable; Fetch.sent := [] |} =
  (inl (Load.ConnectionError (APIError "connection refused")),
   {| Fetch.db := Unreachable; Fetch.sent := [portfolio_query] |}).
Proof.
  split.
  - destruct (no_portfolio_no_list_fetch sample_store sample_execute
                {| Fetch.db := OlderSchema; Fetch.sent := [] |} (Ok None) OlderSchema
                eq_refl eq_refl) as (h & Hload & _ & Hnone).
    rewrite (Hnone None eq_refl) in Hload. exact Hload.
  - destruct (no_portfolio_no_list_fetch sample_store sample_execute
                {| Fetch.db := Unreachable; Fetch.sent := [] |}
                (Raise (APIError "connection refused")) Unreachable
                eq_refl eq_refl) as (h & Hload & Hraise & _).
    rewrite (Hraise (APIError "connection refused") eq_refl) in Hload. exact Hload.
Defined.

Lemma bad_balance_is_a_connection_error_witness :
  py_float (py_or (get_default bad_balance_row "balance_usdt" (VInt 0)) (VInt 0)) =
  Raise ValueError /\
  Load.load_data demo_execute {| Fetch.db := BadBalance; Fetch.sent := [] |} =
  (inl (Load.ConnectionError ValueError),
   {| Fetch.db := BadBalance; Fetch.sent := [portfolio_query] |}).
Proof.
  split; [reflexivity|].
  apply (bad_balance_is_a_connection_error demo_store demo_execute
           {| Fetch.db := BadBalance; Fetch.sent := [] |}
           ("id"%string, VInt 1)
           [ ("balance_usdt", VStr "n/a"); ("positions", VNone) ]%string
           [] BadBalance ValueError);
    reflexivity.
Defined.

Lemma no_positions_empty_table_witness :
  exists d w',
    Load.load_data demo_execute {| Fetch.db := Healthy; Fetch.sent := [] |} = (inr d, w') /\
    Load.portfolio d = healthy_row /\
    Load.positions d = VDict [] /\
    normalize_positions (Some 110%float) (Load.positions d) = Ok [] /\
    Page.open_positions (Load.positions d) = Ok 0%Z.
Proof.
  eexists. eexists.
  assert (H : Load.load_data (B:=sample) demo_execute
                {| Fetch.db := Healthy; Fetch.sent := [] |} = (inr _, _)) by reflexivity.
  split; [exact H|]. split; [reflexivity|].
  exact (no_positions_empty_table demo_store demo_execute _ _ _ (Some 110%float) H eq_refl).
Defined.

Lemma markers_are_disjoint_witness :
  nth_error (marker_groups sample_logs) 0 = Some [row_enter] /\
  nth_error (marker_groups sample_logs) 4 = Some [row_flat] /\
  In row_enter [row_enter] /\
  ~ In row_enter [row_flat].
Proof.
  assert (H1 : nth_error (marker_groups sample_logs) 0 = Some [row_enter]) by reflexivity.
  assert (H2 : nth_error (marker_groups sample_logs) 4 = Some [row_flat]) by reflexivity.
  assert (Hin : In row_enter [row_enter]) by (left; reflexivity).
  split; [exact H1|]. split; [exact H2|]. split; [exact Hin|].
  apply (markers_are_disjoint sample_logs 0 4 [row_enter] [row_flat] row_enter H1 H2);
    [discriminate | exact Hin].
Defined.

Lemma marker_of_a_known_intent_witness :
  df_chart [log_mixed_case] = [row_mixed_case] /\
  intent_text [log_mixed_case] log_mixed_case = Some "Enter_Short"%string /\
  is_ascii "Enter_Short" = true /\
  upper "Enter_Short" = "ENTER_SHORT"%string /\
  In row_mixed_case (shorts [log_mixed_case]).
Proof.
  split; [reflexivity|]. split; [reflexivity|]. split; [reflexivity|].
  split; [reflexivity|].
  assert (Hin : In row_mixed_case (df_chart [log_mixed_case])) by (left; reflexivity).
  destruct (marker_of_a_known_intent [log_mixed_case] row_mixed_case "Enter_Short"
              Hin eq_refl eq_refl) as (_ & Hshorts & _).
  apply Hshorts. reflexivity.
Defined.

Lemma no_intent_no_marker_witness :
  has_column [log_silent] "intent" = false /\
  has_column [log_silent] "action" = false /\
  df_chart [log_silent] = [row_silent] /\
  intent_norm row_silent = "hold"%string /\
  marker_groups [log_silent] = [[]; []; []; []; []].
Proof.
  split; [reflexivity|]. split; [reflexivity|]. split; [reflexivity|].
  destruct (no_intent_no_marker [log_silent] eq_refl eq_refl) as [Hhold Hnone].
  split; [|exact Hnone].
  apply Hhold. left. reflexivity.
Defined.

Lemma recent_time_is_the_clock_witness :
  let log := [ ("timestamp", VStr "2024-01-01T12:35:00+00:00");
               ("action", VStr "HOLD") ]%string in
  truthy (get_default log "created_at" VNone) = false /\
  get log "timestamp" = Some (VStr ("2024-01-01" ++ "T" ++ "12:35:00" ++ "+00:00")) /\
  is_ascii ("2024-01-01" ++ "T" ++ "12:35:00") = true /\
  Time (recent_of log) = "12:35:00"%string.
Proof.
  intros log.
  split; [reflexivity|]. split; [reflexivity|]. split; [reflexivity|].
  apply (recent_time_is_the_clock log "2024-01-01" "12:35:00" "+00:00");
    [right; split; reflexivity | reflexivity | reflexivity | reflexivity].
Defined.

Lemma shown_columns_witness :
  show_cols demo_history = ["_ts"; "symbol"; "side"; "pnl"; "reason"]%string /\
  in_order (show_cols demo_history) SHOWN /\
  NoDup (show_cols demo_history) /\
  exists rest, show_cols demo_history = "_ts"%string :: rest.
Proof.
  split; [reflexivity|].
  destruct (shown_columns demo_history) as (Horder & _ & Hnodup & Hfirst).
  split; [exact Horder|]. split; [exact Hnodup|].
  apply Hfirst. discriminate.
Defined.


Lemma recent_is_bounded_witness :
  Page.str_len long_rationale = 200 /\
  exists r,
    chart_block [log_wordy] = Ok (Some {| frame := df_chart [log_wordy];
                                          markers := marker_groups [log_wordy];
                                          table := [r] |}) /\
    Page.str_len (Thesis r) = 160 /\
    String.length (Thesis r) = 240 /\
    forall r', In r' [r] -> Page.str_len (Thesis r') <= 160.
Proof.
  split; [vm_compute; reflexivity|].
  eexists.
  assert (Hv : chart_block (B:=sample) [log_wordy] =
               Ok (Some {| frame := df_chart [log_wordy];
                           markers := marker_groups [log_wordy];
                           table := [_] |})) by reflexivity.
  split; [exact Hv|].
  split; [vm_compute; reflexivity|]. split; [vm_compute; reflexivity|].
  destruct (recent_is_bounded [log_wordy] _ Hv) as (_ & _ & _ & Hcut).
  exact Hcut.
Defined.
